(** * Storefront: pricing engine, cart store and RUT validator

    A shallow embedding of [src/data/pricing.ts], of the cart store
    ([data/cart]) and of the RUT helpers of the quote modal, together with
    the properties of the specification that concern them.

    Numbers.  The TypeScript code computes with [number].  Catalogue
    amounts, thresholds and quantities are whole numbers (CLP has no minor
    unit), so they are embedded as [Z]; the only division of the code, in
    [getDiscountPercent], is carried out exactly in [Q].  Sign and
    zero tests, which is all the properties below rely on, agree with the
    floating point evaluation on such inputs. *)

From Stdlib Require Import ZArith QArith Lia Bool List Ascii String.
From Stdlib Require Import Numbers.DecimalString Sorting.Sorted.
From stdpp Require Import base option list strings gmap.

Local Open Scope Z_scope.

(** [ProductId = string | number]. *)
Inductive ProductId :=
| IdString (s : string)
| IdNumber (n : Z).

(** ** Pricing engine ([src/data/pricing.ts]) *)
Module Pricing.

Record PriceBreak := mkBreak {
  minQty : Z;
  price : Z;
  discount : option Z   (* display only *)
}.

(** Modelled from the spec: the declaration of [Product]
    ([types/Product]) is not part of the sources at hand; the record has
    the fields the data model lists.  [priceBreaks] is optional. *)
Record Product := mkProduct {
  id : ProductId;
  sku : string;
  name : string;
  basePrice : Z;
  stock : Z;
  priceBreaks : option (list PriceBreak)
}.

(** [product.priceBreaks ?? []] *)
Definition breaksOf (product : Product) : list PriceBreak :=
  default [] (priceBreaks product).

(** [Array.prototype.sort] is stable; with the comparator
    [a.minQty - b.minQty] its result is the stable arrangement by
    ascending [minQty], which a stable insertion sort computes as well. *)
Fixpoint insertBreak (b : PriceBreak) (l : list PriceBreak) : list PriceBreak :=
  match l with
  | [] => [b]
  | c :: l' => if minQty b <=? minQty c then b :: l else c :: insertBreak b l'
  end.

Definition sortByMinQty (l : list PriceBreak) : list PriceBreak :=
  foldr insertBreak [] l.

Definition sortBreaks (product : Product) : list PriceBreak :=
  sortByMinQty (breaksOf product).

(** The callback handed to [reduce]. *)
Definition pickBest (best : option PriceBreak) (curr : PriceBreak) : option PriceBreak :=
  match best with
  | None => Some curr
  | Some b =>
      if price curr <? price b then Some curr
      else if (price curr =? price b) && (minQty b <? minQty curr) then Some curr
      else Some b
  end.

Definition getBestBreakForQty (product : Product) (qty : Z) : option PriceBreak :=
  let sorted := sortBreaks product in
  match sorted with
  | [] => None
  | _ =>
      let eligible := List.filter (fun b => minQty b <=? qty) sorted in
      match eligible with
      | [] => None
      | _ => fold_left pickBest eligible None
      end
  end.

Definition getUnitPriceForQty (product : Product) (qty : Z) : Z :=
  match getBestBreakForQty product qty with
  | Some best => Z.min (price best) (basePrice product)
  | None => basePrice product
  end.

Definition getDiscountPercent (product : Product) (qty : Z) : Q :=
  let base := basePrice product * qty in
  if base <=? 0 then 0%Q
  else
    let unit := getUnitPriceForQty product qty in
    let discounted := unit * qty in
    (inject_Z (base - discounted) / inject_Z base * 100)%Q.

(** The same function with its division made partial: JavaScript's [/]
    does not throw, a zero divisor yields a non-finite value; [numDiv]
    answers [None] there so that reaching it is observable. *)
Definition numDiv (a b : Z) : option Q :=
  if b =? 0 then None else Some (inject_Z a / inject_Z b)%Q.

Definition getDiscountPercentChecked (product : Product) (qty : Z) : option Q :=
  let base := basePrice product * qty in
  if base <=? 0 then Some 0%Q
  else
    let unit := getUnitPriceForQty product qty in
    let discounted := unit * qty in
    match numDiv (base - discounted) base with
    | Some r => Some (r * 100)%Q
    | None => None
    end.

Record PricingResult := mkPricing {
  unitPrice : Z;
  netSubtotal : Z;
  discountPercent : Q
}.

Definition computePricing (product : Product) (qty : Z) : PricingResult :=
  let unitPrice := getUnitPriceForQty product qty in
  let netSubtotal := unitPrice * qty in
  let discountPercent := getDiscountPercent product qty in
  mkPricing unitPrice netSubtotal discountPercent.

(** [b] is no worse a choice than [c]: cheaper, or as cheap with a
    threshold at least as large. *)
Definition noWorse (b c : PriceBreak) : Prop :=
  price b < price c \/ (price b = price c /\ minQty c <= minQty b).

(** A break of the product that the quantity reaches. *)
Definition eligible (P : Product) (q : Z) (b : PriceBreak) : Prop :=
  In b (breaksOf P) /\ minQty b <= q.

(** The shape the data model expects of a list of tiers (not enforced by
    the code): thresholds strictly ascending, hence no two tiers on the
    same threshold. *)
Fixpoint strictlyAscending (l : list PriceBreak) : bool :=
  match l with
  | a :: (b :: _) as rest => (minQty a <? minQty b) && strictlyAscending rest
  | _ => true
  end.

(** The catalogue entry used in the specification's worked example. *)
Definition sample : Product :=
  mkProduct (IdNumber 1) "SKU-1" "Mug" 1000 500
    (Some [mkBreak 10 900 None; mkBreak 50 800 None]).

(** A product whose only tier is priced above the base price. *)
Definition overpriced : Product :=
  mkProduct (IdNumber 2) "SKU-2" "Pen" 1000 500 (Some [mkBreak 10 1200 None]).


End Pricing.

(** [String(n)] for a whole number [n] (below 10^21 in absolute value,
    where JavaScript prints all the digits). *)
Definition numberToString (n : Z) : string :=
  NilZero.string_of_int (Z.to_int n).

(** ** Cart store ([data/cart.ts]) *)
Module Cart.

Record CartItem := mkItem {
  id : ProductId;
  qty : Z;
  name : string;
  price : Z;   (* unit price *)
  image : option string;
  sku : string;
  color : option string;
  size : option string
}.

Record Cart := mkCart {
  items : list CartItem;
  totalQty : Z;
  totalPrice : Z
}.

Record CartState := mkState {
  cart : Cart;
  loading : bool;
  error : option string
}.

Definition KEY : string := "cart".

(** Recalculate the cart *)
Definition recalc (items : list CartItem) : Cart :=
  let totalQty := fold_left (fun sum it => sum + qty it) items 0 in
  let totalPrice := fold_left (fun sum it => sum + price it * qty it) items 0 in
  mkCart items totalQty totalPrice.

(** What [JSON.parse] hands back, as far as [safeGet] looks at it: the
    value itself may be falsy, its [cart] property may be absent (or
    falsy), or it carries a cart, which the code returns unchecked under
    the type [Cart]. *)
Inductive Parsed :=
| Falsy
| WithoutCart
| WithCart (c : Cart).

(** The browser side: [localStorage] as a map from keys to texts, and
    the events dispatched on [window] so far. *)
Record Window := mkWindow {
  localStorage : gmap string string;
  dispatched : list string
}.

(** [None] when [typeof window === "undefined"]. *)
Definition Env := option Window.

(** [{ ...it, qty: q }] *)
Definition withQty (it : CartItem) (q : Z) : CartItem :=
  mkItem (id it) q (name it) (price it) (image it) (sku it) (color it) (size it).

Definition idToString (i : ProductId) : string :=
  match i with
  | IdString s => s
  | IdNumber n => numberToString n
  end.

Definition sameKey (a b : CartItem) : bool :=
  bool_decide (idToString (id a) = idToString (id b))
  && bool_decide (sku a = sku b)
  && bool_decide (color a = color b)
  && bool_decide (size a = size b).

(** The fields of [options?: Partial<CartItem>] that the store reads. *)
Record ItemOptions := mkOptions {
  optSku : option string;
  optColor : option string;
  optSize : option string
}.

(** The line selector shared by [setQty] and [removeFromCart]. *)
Definition selects (i : ProductId) (options : option ItemOptions) (it : CartItem) : bool :=
  bool_decide (idToString (id it) = idToString i)
  && match options with
     | None => true
     | Some o =>
         bool_decide (Some (sku it) = optSku o)
         && bool_decide (color it = optColor o)
         && bool_decide (size it = optSize o)
     end.

Definition emptyState : CartState := mkState (recalc []) false None.

Section Store.
(** [JSON.parse] ([None]: it throws) and [JSON.stringify] are the
    platform's; the store is generic in them. *)
Variable JSON_parse : string -> option Parsed.
Variable JSON_stringify : CartState -> string.

Definition safeGet (env : Env) : CartState :=
  match env with
  | None => emptyState
  | Some w =>
      match localStorage w !! KEY with
      | None => emptyState
      | Some data =>
          if bool_decide (data = EmptyString) then emptyState
          else
            match JSON_parse data with
            | None => emptyState
            | Some Falsy => emptyState
            | Some WithoutCart => emptyState
            | Some (WithCart c) => mkState c false None
            end
      end
  end.

Definition safeSet (state : CartState) (env : Env) : Env :=
  match env with
  | None => None
  | Some w =>
      Some (mkWindow (<[KEY := JSON_stringify state]> (localStorage w))
                     (dispatched w ++ ["cart:updated"]))
  end.

Definition getCart (env : Env) : CartState := safeGet env.

Definition addToCart (item : CartItem) (env : Env) : CartState * Env :=
  let state := safeGet env in
  let items := items (cart state) in
  let items' :=
    match list_find (fun it => sameKey it item) items with
    | Some (idx, line) => <[idx := withQty line (qty line + qty item)]> items
    | None => items ++ [withQty item (if qty item =? 0 then 1 else qty item)]
    end in
  let newState := mkState (recalc items') false None in
  (newState, safeSet newState env).

Definition setQty (i : ProductId) (q : Z) (options : option ItemOptions)
    (env : Env) : CartState * Env :=
  let state := safeGet env in
  let items' :=
    List.map (fun it => if selects i options it then withQty it (Z.max 1 q) else it)
             (items (cart state)) in
  let newState := mkState (recalc items') false None in
  (newState, safeSet newState env).

Definition removeFromCart (i : ProductId) (options : option ItemOptions)
    (env : Env) : CartState * Env :=
  let state := safeGet env in
  let items' := List.filter (fun it => negb (selects i options it)) (items (cart state)) in
  let newState := mkState (recalc items') false None in
  (newState, safeSet newState env).

Definition clearCart (env : Env) : CartState * Env :=
  let newState := mkState (recalc []) false None in
  (newState, safeSet newState env).

(** Stored content that is missing, is not valid JSON, or has no cart
    field. *)
Definition unusable (env : Env) : Prop :=
  match env with
  | None => True
  | Some w =>
      match localStorage w !! KEY with
      | None => True
      | Some data =>
          data = EmptyString \/ JSON_parse data = None
          \/ JSON_parse data = Some Falsy \/ JSON_parse data = Some WithoutCart
      end
  end.

(** The text [safeSet] leaves under the key reads back as the state
    written. *)
Definition readsBack (st : CartState) : Prop :=
  JSON_stringify st <> EmptyString
  /\ JSON_parse (JSON_stringify st) = Some (WithCart (cart st)).

End Store.

(** A pen, as a cart line, and a browser whose storage is empty. *)
Definition pen (q : Z) : CartItem :=
  mkItem (IdNumber 7) q "Pen" 120 None "PEN-01" (Some "blue") None.

Definition freshWindow : Window := mkWindow ∅ [].

(** A browser whose storage holds one text under the key. *)
Definition windowWith (data : string) : Window := mkWindow {[ KEY := data ]} [].

(** Stand-ins for the platform's functions on a handful of texts: the text
    ["two"] is a saved cart with two pens, ["odd"] a saved cart whose totals
    do not match its lines, ["{}"] an object without a cart, ["null"] the
    null value, anything else is not JSON. *)
Definition sampleParse (data : string) : option Parsed :=
  if bool_decide (data = "two") then Some (WithCart (recalc [pen 2]))
  else if bool_decide (data = "odd") then Some (WithCart (mkCart [pen 2] 7 0))
  else if bool_decide (data = "{}") then Some WithoutCart
  else if bool_decide (data = "null") then Some Falsy
  else None.

Definition sampleStringify (st : CartState) : string :=
  match items (cart st) with
  | [_] => "two"
  | _ => "{}"
  end.

(** A mug, as a cart line, and a stand-in for [JSON.parse] that reads the
    text ["pair"] as a saved cart of two pens and one mug. *)
Definition mug (q : Z) : CartItem :=
  mkItem (IdString "m-1") q "Mug" 900 None "MUG-01" None None.

Definition pairParse (data : string) : option Parsed :=
  if bool_decide (data = "pair") then Some (WithCart (recalc [pen 2; mug 1]))
  else None.

(** The totals a cart is meant to carry. *)
Definition sumQty (l : list CartItem) : Z := foldr (fun it acc => qty it + acc) 0 l.
Definition sumPrice (l : list CartItem) : Z := foldr (fun it acc => price it * qty it + acc) 0 l.

Definition consistent (st : CartState) : Prop :=
  totalQty (cart st) = sumQty (items (cart st))
  /\ totalPrice (cart st) = sumPrice (items (cart st))
  /\ loading st = false.

End Cart.

(** ** RUT helpers of the quote modal ([QuoteModal]) *)
(** Texts are sequences of characters with codes 0 to 255 (the code units
    U+0000 to U+00FF); [toUpperCase] acts on the ASCII letters.  Characters
    outside ASCII never become a digit, a dot, a hyphen or ["K"], so they
    make [validateRut] fail here as in the browser. *)
Module Rut.

Definition isDigit (c : ascii) : bool :=
  let n := Z.of_nat (nat_of_ascii c) in (48 <=? n) && (n <=? 57).

Definition digitValue (c : ascii) : Z := Z.of_nat (nat_of_ascii c) - 48.

(** White space: tab, line feed, vertical tab, form feed, carriage
    return, space and the no-break space U+00A0. *)
Definition isSpace (c : ascii) : bool :=
  let n := Z.of_nat (nat_of_ascii c) in
  ((9 <=? n) && (n <=? 13)) || (n =? 32) || (n =? 160).

Definition upperChar (c : ascii) : ascii :=
  let n := nat_of_ascii c in
  if (97 <=? Z.of_nat n) && (Z.of_nat n <=? 122) then ascii_of_nat (n - 32) else c.

Fixpoint toUpperCase (s : string) : string :=
  match s with
  | EmptyString => EmptyString
  | String c s' => String (upperChar c) (toUpperCase s')
  end.

(** [s.replace(/x/g, '')] for a single character [x]. *)
Fixpoint removeAll (x : ascii) (s : string) : string :=
  match s with
  | EmptyString => EmptyString
  | String c s' => if bool_decide (c = x) then removeAll x s' else String c (removeAll x s')
  end.

(** Removes dots and normalizes hyphen *)
Definition cleanRut (rut : string) : string :=
  toUpperCase (removeAll "-" (removeAll "." rut)).

(** [s.slice(0, -1)] and [s.slice(-1)] *)
Fixpoint sliceInit (s : string) : string :=
  match s with
  | EmptyString => EmptyString
  | String c EmptyString => EmptyString
  | String c s' => String c (sliceInit s')
  end.

Fixpoint sliceLast (s : string) : string :=
  match s with
  | EmptyString => EmptyString
  | String c EmptyString => s
  | String c s' => sliceLast s'
  end.

(** [Number(ch)] for a text of one character; [None] stands for [NaN].
    A white space character converts to [0]. *)
Definition charToNumber (c : ascii) : option Z :=
  if isDigit c then Some (digitValue c)
  else if isSpace c then Some 0
  else None.

(** The body of the [for] loop of [calcDV], run on the characters from
    the last one to the first; [M] is the counter before [M++], [S] the
    running value ([None]: [NaN]). *)
Fixpoint calcDVLoop (reversed : list ascii) (M : Z) (S : option Z) : option Z :=
  match reversed with
  | [] => S
  | c :: rest =>
      let S' :=
        match S, charToNumber c with
        | Some s, Some d => Some (Z.rem (s + d * (9 - Z.rem M 6)) 11)
        | _, _ => None
        end in
      calcDVLoop rest (M + 1) S'
  end.

(** Calculates verification digit *)
Definition calcDV (rutNumber : string) : string :=
  match calcDVLoop (rev (list_ascii_of_string rutNumber)) 0 (Some 1) with
  | Some s => if s =? 0 then "K" else numberToString (s - 1)
  | None => "K"
  end.

(** [/^\d{1,8}[0-9K]$/.test(c)] *)
Definition rutPattern (c : string) : bool :=
  match rev (list_ascii_of_string c) with
  | [] => false
  | last :: body =>
      (1 <=? length body)%nat && (length body <=? 8)%nat
      && forallb isDigit body
      && (isDigit last || bool_decide (last = "K"%char))
  end.

(** Validates RUT (nnnnnnn-dv) *)
Definition validateRut (rut : string) : bool :=
  let c := cleanRut rut in
  if negb (rutPattern c) then false
  else
    let body := sliceInit c in
    let dv := sliceLast c in
    bool_decide (calcDV body = dv).

(** The quote modal keeps the field in [rut]; [rutOk] is the memoised
    validity, [printDisabled] the [disabled] attribute of the print
    button and [onRutChange] the field's change handler
    ([setRut(e.target.value)]). *)
Definition truthy (s : string) : bool := negb (bool_decide (s = EmptyString)).

Definition rutOk (rut : string) : bool :=
  if truthy rut then validateRut rut else true.

Definition printDisabled (rut : string) : bool :=
  negb (rutOk rut) && truthy rut.

Definition onRutChange (value : string) (rut : string) : string := value.

(** *** The modulus 11 check digit, as the algorithm is usually stated

    The digits of the body are weighted from the right with
    2, 3, 4, 5, 6, 7, 2, 3, ...; with [r] the weighted sum modulo 11, the
    check digit is [11 - r], written ["0"] for 11 and ["K"] for 10. *)
Definition weight (i : nat) : Z := 2 + Z.of_nat (i mod 6).

Fixpoint weightedSum (i : nat) (reversedDigits : list Z) : Z :=
  match reversedDigits with
  | [] => 0
  | d :: rest => d * weight i + weightedSum (S i) rest
  end.

Definition mod11CheckDigit (body : list ascii) : string :=
  let total := weightedSum 0 (List.map digitValue (rev body)) in
  let r := 11 - total mod 11 in
  if r =? 11 then "0"
  else if r =? 10 then "K"
  else numberToString r.

(** *** Upper case, letter by letter

    The upper case form of a character, read off the two alphabets: a
    small letter has the capital at the same place, any other character is
    left as it is. *)
Definition capitals : list (ascii * ascii) :=
  combine (list_ascii_of_string "abcdefghijklmnopqrstuvwxyz")
          (list_ascii_of_string "ABCDEFGHIJKLMNOPQRSTUVWXYZ").

Definition upperLetter (c : ascii) : ascii :=
  match List.find (fun p => bool_decide (fst p = c)) capitals with
  | Some p => snd p
  | None => c
  end.

(** The text with its dots and hyphens taken out and its letters put in
    upper case, character by character. *)
Definition normalised (rut : string) : list ascii :=
  List.map upperLetter
    (List.filter (fun c => negb (bool_decide (c = "."%char))
                           && negb (bool_decide (c = "-"%char)))
                 (list_ascii_of_string rut)).

(** A normalised text made of a body of 1 to 8 digits and a final
    character that is a digit or ["K"]. *)
Definition shaped (chars body : list ascii) (dv : ascii) : Prop :=
  chars = body ++ [dv]
  /\ (1 <= length body <= 8)%nat
  /\ Forall (fun c => isDigit c = true) body
  /\ (isDigit dv = true \/ dv = "K"%char).

End Rut.

(** ** [Array.prototype.sort] with a comparator *)
(** The sort is stable; for a comparator that orders its arguments
    consistently the result is the one a stable insertion sort gives, an
    element going before the first one it does not compare greater than. *)
Section SortWith.
Context {A : Type} (cmp : A -> A -> Z).

Fixpoint insertWith (x : A) (l : list A) : list A :=
  match l with
  | [] => [x]
  | y :: l' => if cmp x y <=? 0 then x :: l else y :: insertWith x l'
  end.

Definition sortWith (l : list A) : list A := foldr insertWith [] l.

End SortWith.

(** ** Texts *)
Module Text.

Definition lowerChar (c : ascii) : ascii :=
  let n := nat_of_ascii c in
  if (65 <=? Z.of_nat n) && (Z.of_nat n <=? 90) then ascii_of_nat (n + 32) else c.

Fixpoint toLowerCase (s : string) : string :=
  match s with
  | EmptyString => EmptyString
  | String c s' => String (lowerChar c) (toLowerCase s')
  end.

(** [s.includes(sub)] *)
Fixpoint includes (s sub : string) : bool :=
  String.prefix sub s
  || match s with
     | EmptyString => false
     | String _ s' => includes s' sub
     end.

(** Truthiness of a text, and of a text that may be [null]. *)
Definition truthy (s : string) : bool := negb (bool_decide (s = EmptyString)).

Definition truthyOpt (s : option string) : bool :=
  match s with
  | Some t => truthy t
  | None => false
  end.

End Text.

(** ** Catalogue page ([src/pages/ProductList.tsx]) and its filter bar
    ([src/components/ProductFilters.tsx]) *)
Module Catalog.
Import Pricing.

(** A catalogue entry: the product as the pricing engine sees it, with the
    two further fields of [Product] that the page reads. *)
Record Listing := mkListing {
  product : Product;
  category : string;
  supplier : string
}.

(** Helper: minimal unit price (base or best break) *)
Definition productMinUnitPrice (p : Product) : Z :=
  let m := basePrice p in
  match priceBreaks p with
  | Some (b :: l) => fold_left (fun m b => if price b <? m then price b else m) (b :: l) m
  | _ => m
  end.

Definition inPriceRange (minPrice maxPrice : option Z) (unitPrice : Z) : bool :=
  match minPrice with None => true | Some lo => lo <=? unitPrice end
  && match maxPrice with None => true | Some hi => unitPrice <=? hi end.

Definition matchesSearch (search : string) (x : Listing) : bool :=
  Text.includes (Text.toLowerCase (name (product x))) (Text.toLowerCase search)
  || Text.includes (sku (product x)) (Rut.toUpperCase search).

(** The four filters of [filterProducts] taken together: what a catalogue
    entry has to satisfy to be listed. *)
Definition passes (selectedSupplier : option string) (category search : string)
    (minPrice maxPrice : option Z) (x : Listing) : bool :=
  (bool_decide (category = "all") || bool_decide (Catalog.category x = category))
  && (negb (Text.truthyOpt selectedSupplier)
      || bool_decide (Some (supplier x) = selectedSupplier))
  && (negb (Text.truthy search) || matchesSearch search x)
  && inPriceRange minPrice maxPrice (productMinUnitPrice (product x)).

Section Page.
(** [String.prototype.localeCompare] is the platform's. *)
Variable localeCompare : string -> string -> Z.
Variable allProducts : list Listing.

(** The entries that pass the filters, in the catalogue's order. *)
Definition listed (sup : option string) (cat search : string) (lo hi : option Z)
  : list Listing :=
  List.filter (passes sup cat search lo hi) allProducts.

(** The list [filterProducts] hands to [setFilteredProducts];
    [selectedSupplier] is the state variable the function closes over. *)
Definition filterProducts (selectedSupplier : option string)
    (category search sort : string) (minPrice maxPrice : option Z) : list Listing :=
  let filtered := allProducts in
  let filtered :=
    if negb (bool_decide (category = "all"))
    then List.filter (fun x => bool_decide (Catalog.category x = category)) filtered
    else filtered in
  let filtered :=
    if Text.truthyOpt selectedSupplier
    then List.filter (fun x => bool_decide (Some (supplier x) = selectedSupplier)) filtered
    else filtered in
  let filtered :=
    if Text.truthy search
    then List.filter (matchesSearch search) filtered
    else filtered in
  let filtered :=
    if negb (bool_decide (minPrice = None)) || negb (bool_decide (maxPrice = None))
    then List.filter
           (fun x => inPriceRange minPrice maxPrice (productMinUnitPrice (product x)))
           filtered
    else filtered in
  if bool_decide (sort = "name") then
    sortWith (fun a b => localeCompare (name (product a)) (name (product b))) filtered
  else if bool_decide (sort = "+price") then
    sortWith (fun a b => productMinUnitPrice (product b) - productMinUnitPrice (product a))
             filtered
  else if bool_decide (sort = "-price") then
    sortWith (fun a b => productMinUnitPrice (product a) - productMinUnitPrice (product b))
             filtered
  else if bool_decide (sort = "stock") then
    sortWith (fun a b => stock (product b) - stock (product a)) filtered
  else filtered.

(** The state of the page that the filter handlers touch.  A handler runs
    on the values of the render it was created in: it reads the state it
    is given and the setters take effect in the state it returns. *)
Record PageState := mkPage {
  filteredProducts : list Listing;
  selectedCategory : string;
  selectedSupplier : option string;
  searchQuery : string;
  sortBy : string;
  min : option Z;
  max : option Z
}.

Definition initialPage : PageState :=
  mkPage allProducts "all" None EmptyString "name" None None.

Definition handleCategoryChange (category : string) (st : PageState) : PageState :=
  mkPage (filterProducts (selectedSupplier st) category (searchQuery st) (sortBy st)
            (min st) (max st))
         category (selectedSupplier st) (searchQuery st) (sortBy st) (min st) (max st).

Definition handleSearchChange (search : string) (st : PageState) : PageState :=
  mkPage (filterProducts (selectedSupplier st) (selectedCategory st) search (sortBy st)
            (min st) (max st))
         (selectedCategory st) (selectedSupplier st) search (sortBy st) (min st) (max st).

Definition handleSortChange (sort : string) (st : PageState) : PageState :=
  mkPage (filterProducts (selectedSupplier st) (selectedCategory st) (searchQuery st) sort
            (min st) (max st))
         (selectedCategory st) (selectedSupplier st) (searchQuery st) sort (min st) (max st).

Definition handleSupplierChange (supplier : string) (st : PageState) : PageState :=
  mkPage (filterProducts (selectedSupplier st) (selectedCategory st) (searchQuery st)
            supplier (min st) (max st))
         (selectedCategory st) (Some supplier) (searchQuery st) (sortBy st) (min st) (max st).

Definition handlePriceRangeChange (minVal maxVal : option Z) (st : PageState) : PageState :=
  mkPage (filterProducts (selectedSupplier st) (selectedCategory st) (searchQuery st)
            (sortBy st) minVal maxVal)
         (selectedCategory st) (selectedSupplier st) (searchQuery st) (sortBy st)
         minVal maxVal.

Definition handleClearFilters (st : PageState) : PageState :=
  let defaultSort := "name" in
  mkPage (filterProducts (selectedSupplier st) "all" EmptyString defaultSort None None)
         "all" (selectedSupplier st) EmptyString defaultSort None None.

(** *** The filter bar *)

(** [m[k] || 0] on a record of counters. *)
Definition counter (m : gmap string Z) (k : string) : Z := default 0 (m !! k).

(** The reduction that counts the products of each category and of each
    supplier (keys are taken not to clash with the properties every
    JavaScript object inherits). *)
Definition counts : gmap string Z * gmap string Z :=
  fold_left
    (fun acc x =>
       (<[category x := counter (fst acc) (category x) + 1]> (fst acc),
        <[supplier x := counter (snd acc) (supplier x) + 1]> (snd acc)))
    allProducts (∅, ∅).

(** The count shown beside the category [id]. *)
Definition categoryCount (id : string) : Z :=
  if bool_decide (id = "all") then Z.of_nat (length allProducts)
  else counter (fst counts) id.

(** The count shown beside the supplier [id]. *)
Definition supplierCount (id : string) : Z := counter (snd counts) id.

(** [Math.min(...l)] and [Math.max(...l)] for a list that is not empty,
    given by its first element and the rest. *)
Definition mathMin (x : Z) (l : list Z) : Z := fold_left Z.min l x.
Definition mathMax (x : Z) (l : list Z) : Z := fold_left Z.max l x.

Definition allUnitPrices : list Z :=
  flat_map
    (fun x =>
       let breaks := List.map price (default [] (priceBreaks (product x))) in
       [mathMin (basePrice (product x)) breaks; mathMax (basePrice (product x)) breaks])
    allProducts.

Definition globalMinPrice : Z :=
  match allUnitPrices with
  | [] => 0
  | x :: l => mathMin x l
  end.

Definition globalMaxPrice : Z :=
  match allUnitPrices with
  | [] => 0
  | x :: l => mathMax x l
  end.

End Page.

(** A small catalogue, and the comparison of texts by character codes in
    the place of [localeCompare]. *)
Definition shelf : list Listing :=
  [mkListing sample "drinkware" "acme"; mkListing overpriced "office" "bits"].

(** A catalogue whose order is not the order by stock. *)
Definition crate : list Listing :=
  [mkListing (mkProduct (IdNumber 5) "A-1" "Cap" 10 1 None) "wear" "acme";
   mkListing (mkProduct (IdNumber 6) "B-1" "Bag" 20 9 None) "wear" "acme"].

Definition codeCompare (a b : string) : Z :=
  match String.compare a b with
  | Lt => -1
  | Eq => 0
  | Gt => 1
  end.

End Catalog.

(** ** Numbers typed into a field *)
Module Input.

(** [s.trim()], on the white space of ASCII. *)
Fixpoint dropSpaces (l : list ascii) : list ascii :=
  match l with
  | c :: l' => if Rut.isSpace c then dropSpaces l' else l
  | [] => []
  end.

Definition trim (s : string) : string :=
  string_of_list_ascii
    (rev (dropSpaces (rev (dropSpaces (list_ascii_of_string s))))).

(** The value of the longest run of digits that starts the list, if that
    run is not empty. *)
Fixpoint leadingDigits (acc : option Z) (l : list ascii) : option Z :=
  match l with
  | c :: l' =>
      if Rut.isDigit c
      then leadingDigits (Some (10 * default 0 acc + Rut.digitValue c)) l'
      else acc
  | [] => acc
  end.

(** [parseInt(s, 10)]; [None] stands for [NaN].  Leading white space is
    skipped, a sign is accepted, and the digits up to the first other
    character are read. *)
Definition parseInt10 (s : string) : option Z :=
  match dropSpaces (list_ascii_of_string s) with
  | "-"%char :: l => Z.opp <$> leadingDigits None l
  | "+"%char :: l => leadingDigits None l
  | l => leadingDigits None l
  end.

(** [n || d] for a number [n] that may be [NaN]. *)
Definition orElse (n : option Z) (d : Z) : Z :=
  match n with
  | Some v => if v =? 0 then d else v
  | None => d
  end.

End Input.

(** ** Price range fields of the filter bar
    ([src/components/ProductFilters.tsx]) *)
Module PriceRange.

(** The bound that [handleMinChange] and [handleMaxChange] compute from
    the text of their field ([None]: [null]). *)
Definition bound (value : string) : option Z :=
  let v := Input.trim value in
  if bool_decide (v = EmptyString) then None
  else Some (Z.max 0 (Input.orElse (Input.parseInt10 v) 0)).


Definition handleMaxChange (localeCompare : string -> string -> Z)
    (allProducts : list Catalog.Listing) (value : string)
    (st : Catalog.PageState) : Catalog.PageState :=
  Catalog.handlePriceRangeChange localeCompare allProducts
    (Catalog.min st) (bound value) st.

End PriceRange.

(** ** Pricing calculator ([components/PricingCalculator.tsx]) *)
Module Calculator.
Import Pricing.

(** [l.findIndex(f)] *)
Definition findIndex {A} (f : A -> bool) (l : list A) : Z :=
  match list_find (fun x => f x) l with
  | Some (i, _) => Z.of_nat i
  | None => -1
  end.

(** The index the effect stores with [setSelectedBreak]. *)
Definition selectedBreak (product : Product) (quantity : Z) : Z :=
  match getBestBreakForQty product quantity with
  | None => -1
  | Some best =>
      findIndex (fun b => (minQty b =? minQty best) && (price b =? price best))
                (sortBreaks product)
  end.

(** [isActive] of the tier drawn at a position of the sorted list. *)
Definition isActive (quantity : Z) (priceBreak : PriceBreak) : bool :=
  minQty priceBreak <=? quantity.

(** The quantity set by the field's change handler ([None]: [NaN]). *)
Definition onQuantityChange (product : Product) (text : string) : option Z :=
  let value := Input.parseInt10 (if Text.truthy text then text else "1") in
  match value with
  | Some v => Some (Z.min (stock product) (Z.max 1 v))
  | None => None
  end.

(** The quantity set by a click on a tier. *)
Definition onBreakClick (priceBreak : PriceBreak) : Z := minQty priceBreak.

End Calculator.

(** ** Cart panel ([src/components/CartAside.tsx]) *)
Module CartAside.
Import Cart.

(** [{ sku: it.sku, color: it.color, size: it.size }] *)
Definition optionsOf (it : CartItem) : ItemOptions :=
  mkOptions (Some (sku it)) (color it) (size it).

Section Panel.
Variable JSON_parse : string -> option Parsed.
Variable JSON_stringify : CartState -> string.

(** The click handlers of a line [it] of the panel. *)
Definition onRemove (it : CartItem) (env : Env) : CartState * Env :=
  removeFromCart JSON_parse JSON_stringify (id it) (Some (optionsOf it)) env.

Definition onDecrement (it : CartItem) (env : Env) : CartState * Env :=
  let next := Z.max 1 (qty it - 1) in
  setQty JSON_parse JSON_stringify (id it) next (Some (optionsOf it)) env.

Definition onIncrement (it : CartItem) (env : Env) : CartState * Env :=
  let next := qty it + 1 in
  setQty JSON_parse JSON_stringify (id it) next (Some (optionsOf it)) env.

(** Helpers of the store that the panel and the header read. *)
Definition getCartTotal (env : Env) : Z := totalPrice (cart (safeGet JSON_parse env)).
Definition getCartItems (env : Env) : list CartItem := items (cart (safeGet JSON_parse env)).
Definition getCartItemCount (env : Env) : Z := totalQty (cart (safeGet JSON_parse env)).
Definition isCartLoading (env : Env) : bool := loading (safeGet JSON_parse env).

End Panel.

(** The key of a line: what [sameKey] compares. *)
Definition keyOf (it : CartItem) : string * string * option string * option string :=
  (idToString (id it), sku it, color it, size it).

End CartAside.

(** ** Formatting a RUT ([components/QuoteModal.tsx]) *)
Module Quote.
Import Rut.

(** A character that [cleanRut] does not remove. *)
Definition kept (c : ascii) : bool :=
  negb (bool_decide (c = "."%char)) && negb (bool_decide (c = "-"%char)).

(** [\w] *)
Definition isWordChar (c : ascii) : bool :=
  let n := Z.of_nat (nat_of_ascii c) in
  isDigit c
  || ((65 <=? n) && (n <=? 90))
  || ((97 <=? n) && (n <=? 122))
  || (n =? 95).

(** The length of the run of digits that starts the list. *)
Fixpoint digitRun (l : list ascii) : nat :=
  match l with
  | c :: l' => if isDigit c then S (digitRun l') else O
  | [] => O
  end.

(** [body.replace(/\B(?=(\d{3})+(?!\d))/g, ".")]: a dot goes in at every
    position that is not a word boundary and from which a run of digits of
    a length that is a positive multiple of 3 starts.  As a digit follows,
    the position is no word boundary exactly when a word character
    precedes; [prev] is the preceding character. *)
Fixpoint withDots (prev : option ascii) (l : list ascii) : list ascii :=
  match l with
  | [] => []
  | c :: l' =>
      let here :=
        match prev with
        | Some p =>
            isWordChar p && negb (digitRun l =? 0)%nat && (digitRun l mod 3 =? 0)%nat
        | None => false
        end in
      (if here then ["."%char] else []) ++ c :: withDots (Some c) l'
  end.

(** Formats RUT like 12.345.678-9 *)
Definition formatRut (rut : string) : string :=
  let c := cleanRut rut in
  if negb (Text.truthy c) then EmptyString
  else
    let body := sliceInit c in
    let dv := sliceLast c in
    (string_of_list_ascii (withDots None (list_ascii_of_string body)) +:+ "-" +:+ dv)%string.

End Quote.

(** * Properties of the pricing engine *)
Module PricingFacts.
Import Pricing.

(** ** Sorting keeps the breaks *)

Lemma In_insertBreak b l x : In x (insertBreak b l) <-> x = b \/ In x l.
Proof.
  induction l as [|c l IH]; simpl.
  - intuition.
  - destruct (minQty b <=? minQty c); simpl; rewrite ?IH; intuition.
Qed.

Lemma In_sortByMinQty l x : In x (sortByMinQty l) <-> In x l.
Proof.
  induction l as [|b l IH]; simpl; [tauto|].
  rewrite In_insertBreak, IH. intuition.
Qed.

Lemma In_sortBreaks P x : In x (sortBreaks P) <-> In x (breaksOf P).
Proof. apply In_sortByMinQty. Qed.

(** ** The reduction *)

Lemma noWorse_refl b : noWorse b b.
Proof. right; lia. Qed.

Lemma noWorse_trans a b c : noWorse a b -> noWorse b c -> noWorse a c.
Proof. unfold noWorse; lia. Qed.

Lemma pickBest_Some b curr :
  exists r, pickBest (Some b) curr = Some r
            /\ (r = b \/ r = curr) /\ noWorse r b /\ noWorse r curr.
Proof.
  unfold pickBest, noWorse.
  destruct (price curr <? price b) eqn:E1.
  - apply Z.ltb_lt in E1. exists curr. repeat split; auto; lia.
  - apply Z.ltb_ge in E1.
    destruct (price curr =? price b) eqn:E2; simpl.
    + apply Z.eqb_eq in E2.
      destruct (minQty b <? minQty curr) eqn:E3.
      * apply Z.ltb_lt in E3. exists curr. repeat split; auto; lia.
      * apply Z.ltb_ge in E3. exists b. repeat split; auto; lia.
    + apply Z.eqb_neq in E2. exists b. repeat split; auto; lia.
Qed.

Lemma fold_pickBest_Some l : forall b,
  exists r, fold_left pickBest l (Some b) = Some r
            /\ (r = b \/ In r l) /\ noWorse r b /\ (forall c, In c l -> noWorse r c).
Proof.
  induction l as [|curr l IH]; intros b; cbn [fold_left].
  - exists b. split; [reflexivity|]. split; [now left|]. split; [apply noWorse_refl|].
    intros c [].
  - destruct (pickBest_Some b curr) as (r0 & -> & Hin0 & Hb & Hc).
    destruct (IH r0) as (r & Hr & Hin & Hr0 & Hall).
    exists r. split; [exact Hr|]. split; [|split].
    + destruct Hin as [->|Hin]; [|right; now right].
      destruct Hin0 as [->| ->]; [now left | right; now left].
    + eapply noWorse_trans; eauto.
    + intros c [<-|Hc']; [eapply noWorse_trans; eauto | auto].
Qed.

Lemma fold_pickBest_cons curr l :
  exists r, fold_left pickBest (curr :: l) None = Some r
            /\ In r (curr :: l) /\ (forall c, In c (curr :: l) -> noWorse r c).
Proof.
  cbn [fold_left]. change (pickBest None curr) with (Some curr).
  destruct (fold_pickBest_Some l curr) as (r & Hr & Hin & Hb & Hall).
  exists r. split; [exact Hr|]. split.
  - destruct Hin as [->|Hin]; [now left | now right].
  - intros c [<-|Hc]; auto.
Qed.

(** ** [getBestBreakForQty] *)

Lemma In_eligible_filter P q b :
  In b (List.filter (fun b => minQty b <=? q) (sortBreaks P)) <-> eligible P q b.
Proof.
  rewrite filter_In, In_sortBreaks, Z.leb_le. reflexivity.
Qed.

Lemma getBestBreakForQty_unfold P q :
  getBestBreakForQty P q =
  fold_left pickBest (List.filter (fun b => minQty b <=? q) (sortBreaks P)) None.
Proof.
  unfold getBestBreakForQty.
  destruct (sortBreaks P) as [|b l]; [reflexivity|].
  cbv zeta. destruct (List.filter _ (b :: l)); reflexivity.
Qed.

Lemma getBestBreakForQty_None P q :
  getBestBreakForQty P q = None <-> (forall b, ~ eligible P q b).
Proof.
  rewrite getBestBreakForQty_unfold.
  destruct (List.filter _ (sortBreaks P)) as [|c l] eqn:E.
  - split; [|reflexivity]. intros _ b Hb.
    apply In_eligible_filter in Hb. rewrite E in Hb. destruct Hb.
  - destruct (fold_pickBest_cons c l) as (r & -> & _).
    split; [discriminate|]. intros H. exfalso. apply (H c).
    apply In_eligible_filter. rewrite E. now left.
Qed.

Lemma getBestBreakForQty_Some P q b :
  getBestBreakForQty P q = Some b ->
  eligible P q b /\ (forall c, eligible P q c -> noWorse b c).
Proof.
  rewrite getBestBreakForQty_unfold.
  destruct (List.filter _ (sortBreaks P)) as [|c l] eqn:E; [discriminate|].
  destruct (fold_pickBest_cons c l) as (r & -> & Hin & Hall).
  intros [= <-]. rewrite <- E in Hin, Hall. split.
  - now apply In_eligible_filter.
  - intros c' Hc'. apply Hall. now apply In_eligible_filter.
Qed.

Lemma getBestBreakForQty_eligible P q c :
  eligible P q c -> exists b, getBestBreakForQty P q = Some b.
Proof.
  intros Hc. destruct (getBestBreakForQty P q) as [b|] eqn:E; [eauto|].
  exfalso. eapply getBestBreakForQty_None; eauto.
Qed.

(** C1. [getBestBreakForQty] answers none exactly when no break has
    [minQty <= qty]; otherwise the break it answers is eligible, no
    eligible break is cheaper, and no eligible break of the same price
    has a larger [minQty]. *)
Theorem getBestBreakForQty_spec (P : Product) (q : Z) :
  (getBestBreakForQty P q = None <->
     forall b, In b (breaksOf P) -> ~ minQty b <= q)
  /\ (forall b, getBestBreakForQty P q = Some b ->
        In b (breaksOf P) /\ minQty b <= q
        /\ (forall c, In c (breaksOf P) -> minQty c <= q -> price b <= price c)
        /\ (forall c, In c (breaksOf P) -> minQty c <= q ->
              price c = price b -> minQty c <= minQty b)).
Proof.
  split.
  - rewrite getBestBreakForQty_None. unfold eligible. firstorder.
  - intros b Hb. apply getBestBreakForQty_Some in Hb as [[Hin Hq] Hall].
    repeat split; auto.
    + intros c Hc Hcq. destruct (Hall c (conj Hc Hcq)) as [?|[? _]]; lia.
    + intros c Hc Hcq Hp. destruct (Hall c (conj Hc Hcq)) as [?|[_ ?]]; lia.
Qed.

Lemma getBestBreakForQty_spec_witness :
  getBestBreakForQty sample 60 = Some (mkBreak 50 800 None)
  /\ In (mkBreak 50 800 None) (breaksOf sample).
Proof.
  split; [reflexivity|].
  apply (proj2 (getBestBreakForQty_spec sample 60) (mkBreak 50 800 None)).
  reflexivity.
Defined.

(** ** [getUnitPriceForQty] *)

Lemma getUnitPriceForQty_le_base P q : getUnitPriceForQty P q <= basePrice P.
Proof. unfold getUnitPriceForQty. destruct (getBestBreakForQty P q); lia. Qed.

(** C2. The unit price is the smaller of the best break's price and the
    base price when a break is eligible, the base price otherwise, and
    hence never above the base price. *)
Theorem getUnitPriceForQty_spec (P : Product) (q : Z) :
  (forall b, getBestBreakForQty P q = Some b ->
     getUnitPriceForQty P q = Z.min (price b) (basePrice P))
  /\ ((exists c, In c (breaksOf P) /\ minQty c <= q) ->
      exists b, getBestBreakForQty P q = Some b
                /\ getUnitPriceForQty P q = Z.min (price b) (basePrice P))
  /\ ((forall c, In c (breaksOf P) -> ~ minQty c <= q) ->
      getUnitPriceForQty P q = basePrice P)
  /\ getUnitPriceForQty P q <= basePrice P.
Proof.
  repeat split.
  - intros b Hb. unfold getUnitPriceForQty. now rewrite Hb.
  - intros [c Hc]. destruct (getBestBreakForQty_eligible P q c Hc) as [b Hb].
    exists b. split; [exact Hb|]. unfold getUnitPriceForQty. now rewrite Hb.
  - intros Hnone. unfold getUnitPriceForQty.
    replace (getBestBreakForQty P q) with (@None PriceBreak); [reflexivity|].
    symmetry. apply getBestBreakForQty_None. intros b [Hin Hq]. exact (Hnone b Hin Hq).
  - apply getUnitPriceForQty_le_base.
Qed.

Lemma getUnitPriceForQty_spec_witness :
  getUnitPriceForQty sample 10 = Z.min 900 1000
  /\ getUnitPriceForQty sample 5 = 1000.
Proof.
  split.
  - apply (proj1 (getUnitPriceForQty_spec sample 10) (mkBreak 10 900 None)).
    reflexivity.
  - apply (proj1 (proj2 (proj2 (getUnitPriceForQty_spec sample 5)))).
    intros c [<-|[<-|[]]]; simpl; lia.
Defined.

(** A larger quantity makes more breaks eligible, so the unit price can
    only go down; this needs no assumption on the list of tiers. *)
Lemma getUnitPriceForQty_antitone_any P q1 q2 :
  q1 <= q2 -> getUnitPriceForQty P q2 <= getUnitPriceForQty P q1.
Proof.
  intros Hq. unfold getUnitPriceForQty at 2.
  destruct (getBestBreakForQty P q1) as [b1|] eqn:E1.
  - apply getBestBreakForQty_Some in E1 as [[Hin1 Hq1] _].
    assert (H2 : eligible P q2 b1) by (split; [exact Hin1 | lia]).
    destruct (getBestBreakForQty_eligible P q2 b1 H2) as [b2 E2].
    unfold getUnitPriceForQty. rewrite E2.
    apply getBestBreakForQty_Some in E2 as [_ Hall].
    specialize (Hall b1 H2). unfold noWorse in Hall. lia.
  - apply getUnitPriceForQty_le_base.
Qed.

(** C4. With tiers in strictly ascending order of [minQty], the unit price
    does not increase when the quantity grows. *)
Theorem getUnitPriceForQty_antitone (P : Product) (q1 q2 : Z) :
  strictlyAscending (breaksOf P) = true ->
  q1 <= q2 ->
  getUnitPriceForQty P q1 >= getUnitPriceForQty P q2.
Proof.
  intros _ Hq. apply Z.le_ge. now apply getUnitPriceForQty_antitone_any.
Qed.

Lemma getUnitPriceForQty_antitone_witness :
  getUnitPriceForQty sample 10 >= getUnitPriceForQty sample 60.
Proof.
  apply (getUnitPriceForQty_antitone sample 10 60); [reflexivity | lia].
Defined.

(** C5. [computePricing] is the plain composition of the three
    functions. *)
Theorem computePricing_spec (P : Product) (q : Z) :
  netSubtotal (computePricing P q) = getUnitPriceForQty P q * q
  /\ unitPrice (computePricing P q) = getUnitPriceForQty P q
  /\ discountPercent (computePricing P q) = getDiscountPercent P q.
Proof. repeat split. Qed.

(** ** [getDiscountPercent] *)

Lemma getDiscountPercent_guarded P q :
  basePrice P * q <= 0 -> getDiscountPercent P q = 0%Q.
Proof.
  intros H. unfold getDiscountPercent.
  destruct (Z.leb_spec (basePrice P * q) 0); [reflexivity | lia].
Qed.

Lemma getDiscountPercent_unguarded P q :
  0 < basePrice P * q ->
  getDiscountPercent P q =
  (inject_Z (basePrice P * q - getUnitPriceForQty P q * q)
     / inject_Z (basePrice P * q) * 100)%Q.
Proof.
  intros H. unfold getDiscountPercent.
  destruct (Z.leb_spec (basePrice P * q) 0); [lia | reflexivity].
Qed.

Lemma percent_nonneg (a b : Z) :
  0 <= a -> 0 < b -> (0 <= inject_Z a / inject_Z b * 100)%Q.
Proof.
  intros Ha Hb. apply Qmult_le_0_compat; [|discriminate].
  apply Qle_shift_div_l.
  - change 0%Q with (inject_Z 0). now rewrite <- Zlt_Qlt.
  - rewrite Qmult_0_l. change 0%Q with (inject_Z 0). now rewrite <- Zle_Qle.
Qed.

Lemma getDiscountPercent_nonneg P q :
  0 <= q \/ 0 <= basePrice P -> (0 <= getDiscountPercent P q)%Q.
Proof.
  intros Hdom.
  destruct (Z.le_gt_cases (basePrice P * q) 0) as [H|H].
  - rewrite getDiscountPercent_guarded by exact H. apply Qle_refl.
  - rewrite getDiscountPercent_unguarded by exact H.
    apply percent_nonneg; [|exact H].
    pose proof (getUnitPriceForQty_le_base P q) as Hu.
    assert (Hq : 0 < q) by (apply Z.lt_0_mul in H; lia).
    rewrite <- Z.mul_sub_distr_r. apply Z.mul_nonneg_nonneg; lia.
Qed.

Lemma getDiscountPercent_capped P q b :
  getBestBreakForQty P q = Some b -> basePrice P <= price b ->
  (getDiscountPercent P q == 0)%Q.
Proof.
  intros Hb Hp.
  destruct (Z.le_gt_cases (basePrice P * q) 0) as [H|H].
  - rewrite getDiscountPercent_guarded by exact H. reflexivity.
  - rewrite getDiscountPercent_unguarded by exact H.
    unfold getUnitPriceForQty. rewrite Hb, Z.min_r by exact Hp.
    rewrite Z.sub_diag. unfold Qdiv. now rewrite !Qmult_0_l.
Qed.

(** With a quantity or a base price that is not negative the percentage
    is not negative, the unit price being capped at the base price; and
    when the break that applies is priced at or above the base price the
    percentage is 0. *)
Lemma getDiscountPercent_capped_at_base (P : Product) (q : Z) :
  (0 <= q \/ 0 <= basePrice P -> (0 <= getDiscountPercent P q)%Q)
  /\ (forall b, getBestBreakForQty P q = Some b -> basePrice P <= price b ->
        (getDiscountPercent P q == 0)%Q).
Proof.
  split; [apply getDiscountPercent_nonneg | apply getDiscountPercent_capped].
Qed.

Example getDiscountPercent_overpriced :
  (getDiscountPercent overpriced 10 == 0)%Q.
Proof. reflexivity. Qed.

(** A negative percentage needs a negative base price together with a
    negative quantity. *)
Lemma getDiscountPercent_negative_only P q :
  (getDiscountPercent P q < 0)%Q -> basePrice P < 0 /\ q < 0.
Proof.
  intros Hneg.
  destruct (Z.lt_ge_cases q 0) as [Hq|Hq], (Z.lt_ge_cases (basePrice P) 0) as [Hb|Hb];
    [tauto | | | ];
    exfalso; apply (Qlt_not_le _ _ Hneg); apply getDiscountPercent_nonneg; auto.
Qed.


(** The worked example of the specification. *)
Example computePricing_sample_5 :
  unitPrice (computePricing sample 5) = 1000
  /\ (discountPercent (computePricing sample 5) == 0)%Q.
Proof. split; reflexivity. Qed.

Example computePricing_sample_10 :
  unitPrice (computePricing sample 10) = 900
  /\ (discountPercent (computePricing sample 10) == 10)%Q.
Proof. split; reflexivity. Qed.

Example computePricing_sample_60 :
  unitPrice (computePricing sample 60) = 800
  /\ (discountPercent (computePricing sample 60) == 20)%Q.
Proof. split; reflexivity. Qed.

(** C6. The percentage is 0 whenever [basePrice * qty <= 0], in particular
    for a base price or a quantity of 0, and the division is never
    reached with a zero divisor: the checked variant always answers, and
    answers what [getDiscountPercent] does. *)
Theorem getDiscountPercent_total (P : Product) (q : Z) :
  (basePrice P * q <= 0 -> getDiscountPercent P q = 0%Q)
  /\ (basePrice P = 0 \/ q = 0 -> getDiscountPercent P q = 0%Q)
  /\ getDiscountPercentChecked P q = Some (getDiscountPercent P q).
Proof.
  repeat split.
  - apply getDiscountPercent_guarded.
  - intros H. apply getDiscountPercent_guarded. nia.
  - unfold getDiscountPercentChecked, getDiscountPercent, numDiv.
    destruct (Z.leb_spec (basePrice P * q) 0) as [H|H]; [reflexivity|].
    destruct (Z.eqb_spec (basePrice P * q) 0) as [E|E]; [lia | reflexivity].
Qed.

Lemma getDiscountPercent_total_witness :
  getDiscountPercent sample 0 = 0%Q.
Proof.
  apply (proj1 (getDiscountPercent_total sample 0)). simpl. lia.
Defined.

End PricingFacts.

(** * Properties of the cart store *)
Module CartFacts.
Import Cart.

(** ** [recalc] *)

Lemma fold_left_qty l : forall a,
  fold_left (fun sum it => sum + qty it) l a = a + sumQty l.
Proof.
  induction l as [|it l IH]; intros a; simpl.
  - lia.
  - rewrite IH. lia.
Qed.

Lemma fold_left_price l : forall a,
  fold_left (fun sum it => sum + price it * qty it) l a = a + sumPrice l.
Proof.
  induction l as [|it l IH]; intros a; simpl.
  - lia.
  - rewrite IH. lia.
Qed.

Lemma recalc_consistent l : consistent (mkState (recalc l) false None).
Proof.
  unfold consistent, recalc; simpl.
  rewrite fold_left_qty, fold_left_price. repeat split; lia.
Qed.

Lemma items_recalc l : items (recalc l) = l.
Proof. reflexivity. Qed.

(** ** The key of a line *)

Lemma sameKey_true a b :
  sameKey a b = true <->
  idToString (id a) = idToString (id b) /\ sku a = sku b
  /\ color a = color b /\ size a = size b.
Proof.
  unfold sameKey. rewrite !andb_true_iff, !bool_decide_eq_true. tauto.
Qed.

Lemma sameKey_withQty_l a q b : sameKey (withQty a q) b = sameKey a b.
Proof. reflexivity. Qed.

Lemma sameKey_shift a b line :
  sameKey a b = true -> sameKey line b = sameKey line a.
Proof.
  intros Hab. apply sameKey_true in Hab as (Hi & Hs & Hc & Hz).
  unfold sameKey. now rewrite Hi, Hs, Hc, Hz.
Qed.

Section Store.
Variable JSON_parse : string -> option Parsed.
Variable JSON_stringify : CartState -> string.

Local Abbreviation safeGet := (Cart.safeGet JSON_parse).
Local Abbreviation getCart := (Cart.getCart JSON_parse).
Local Abbreviation addToCart := (Cart.addToCart JSON_parse JSON_stringify).
Local Abbreviation setQty := (Cart.setQty JSON_parse JSON_stringify).
Local Abbreviation removeFromCart := (Cart.removeFromCart JSON_parse JSON_stringify).
Local Abbreviation clearCart := (Cart.clearCart JSON_stringify).

Lemma safeGet_stored w data c :
  localStorage w !! KEY = Some data -> data <> EmptyString ->
  JSON_parse data = Some (WithCart c) ->
  safeGet (Some w) = mkState c false None.
Proof.
  intros Hw Hne Hp. unfold Cart.safeGet. rewrite Hw.
  rewrite bool_decide_eq_false_2 by exact Hne. now rewrite Hp.
Qed.

Lemma safeGet_safeSet st w :
  readsBack JSON_parse JSON_stringify st -> safeGet (safeSet JSON_stringify st (Some w)) = mkState (cart st) false None.
Proof.
  intros [Hne Hp]. apply (safeGet_stored _ (JSON_stringify st)); auto.
  simpl. apply lookup_insert_eq.
Qed.

(** ** [addToCart] on a line that is already there *)

Lemma addToCart_existing item env :
  let items0 := items (cart (safeGet env)) in
  (exists line, line ∈ items0 /\ sameKey line item = true) ->
  exists (idx : nat) (line : CartItem),
    items0 !! idx = Some line
    /\ sameKey line item = true
    /\ (forall (j : nat) (other : CartItem),
          (j < idx)%nat -> items0 !! j = Some other -> sameKey other item = false)
    /\ items (cart (fst (addToCart item env)))
       = <[idx := withQty line (qty line + qty item)]> items0.
Proof.
  intros items0 (line0 & Hin & Hkey).
  destruct (list_find (fun it => sameKey it item) items0) as [[idx line]|] eqn:E.
  - exists idx, line.
    pose proof E as (Hl & Hp & Hleast)%list_find_Some.
    split; [exact Hl|]. split; [now apply Is_true_true|]. split.
    + intros j other Hj Hother.
      destruct (sameKey other item) eqn:Ek; [|reflexivity].
      exfalso. apply (Hleast j other Hother Hj). now rewrite Ek.
    + unfold Cart.addToCart. cbn [fst cart items recalc]. fold items0.
      now rewrite E.
  - exfalso. apply list_find_None in E.
    rewrite Forall_forall in E. apply (E line0 Hin). now rewrite Hkey.
Qed.

Lemma addToCart_fresh item env :
  let items0 := items (cart (safeGet env)) in
  (forall line, line ∈ items0 -> sameKey line item = false) ->
  items (cart (fst (addToCart item env)))
  = items0 ++ [withQty item (if qty item =? 0 then 1 else qty item)].
Proof.
  intros items0 Hnone.
  unfold Cart.addToCart. cbn [fst cart items recalc]. fold items0.
  replace (list_find (fun it => sameKey it item) items0)
    with (@None (nat * CartItem)); [reflexivity|].
  symmetry. apply list_find_None, Forall_forall.
  intros line Hin. rewrite (Hnone line Hin). simpl. tauto.
Qed.

Lemma sameKey_false_shift a b (l : list CartItem) :
  sameKey a b = true ->
  (forall line, line ∈ l -> sameKey line a = false) ->
  (forall line, line ∈ l -> sameKey line b = false).
Proof.
  intros Hab Hnone line Hin. rewrite (sameKey_shift a b line Hab). auto.
Qed.

Lemma addToCart_twice w a b :
  let items0 := items (cart (safeGet (Some w))) in
  (forall line, line ∈ items0 -> sameKey line a = false) ->
  sameKey a b = true -> qty a = 2 -> qty b = 3 ->
  readsBack JSON_parse JSON_stringify (fst (addToCart a (Some w))) ->
  items (cart (fst (addToCart b (snd (addToCart a (Some w))))))
  = items0 ++ [withQty a 5].
Proof.
  intros items0 Hnone Hab Ha Hb Hback.
  pose proof (addToCart_fresh a (Some w) Hnone) as H1. fold items0 in H1.
  rewrite Ha in H1. change (2 =? 0) with false in H1. cbv iota in H1.
  set (st1 := fst (addToCart a (Some w))) in *.
  assert (Hget : safeGet (snd (addToCart a (Some w))) = mkState (cart st1) false None).
  { change (snd (addToCart a (Some w)))
      with (safeSet JSON_stringify st1 (Some w)).
    now apply safeGet_safeSet. }
  assert (Hfind : list_find (fun it => sameKey it b) (items0 ++ [withQty a 2])
                  = Some (length items0, withQty a 2)).
  { apply list_find_Some. split; [|split].
    - rewrite lookup_app_r by lia. now rewrite Nat.sub_diag.
    - rewrite sameKey_withQty_l, Hab. exact I.
    - intros j y Hy Hj Hp. rewrite lookup_app_l in Hy by exact Hj.
      apply list_elem_of_lookup_2 in Hy.
      rewrite (sameKey_false_shift a b items0 Hab Hnone y Hy) in Hp. exact Hp. }
  unfold Cart.addToCart at 1. cbn [fst cart items recalc].
  rewrite Hget. cbn [cart]. rewrite H1, Hfind.
  replace (length items0) with (length items0 + 0)%nat by lia.
  rewrite insert_app_r. cbn. unfold withQty; cbn. now rewrite Hb.
Qed.

(** C7. When the cart holds a line with the key of the added item (the id
    taken as text, the sku, the color and the size), [addToCart] puts in
    the place of the first such line the same line with the item's
    quantity added to its own, leaves every other line as it is, and the
    number of lines stays the same; and adding an item that is not in the
    cart yet with quantity 2, then again with quantity 3, leaves one line
    for it, of quantity 5. *)
Theorem addToCart_same_key (item : CartItem) (env : Env) :
  ((exists line, line ∈ items (cart (safeGet env)) /\ sameKey line item = true) ->
   exists (idx : nat) (line : CartItem),
     items (cart (safeGet env)) !! idx = Some line
     /\ sameKey line item = true
     /\ (forall (j : nat) (other : CartItem),
           (j < idx)%nat -> items (cart (safeGet env)) !! j = Some other ->
           sameKey other item = false)
     /\ items (cart (fst (addToCart item env)))
        = <[idx := mkItem (id line) (qty line + qty item) (name line) (price line)
                         (image line) (sku line) (color line) (size line)]>
            (items (cart (safeGet env)))
     /\ (exists merged : CartItem,
           items (cart (fst (addToCart item env))) !! idx = Some merged
           /\ qty merged = qty line + qty item)
     /\ (forall j : nat,
           j <> idx ->
           items (cart (fst (addToCart item env))) !! j = items (cart (safeGet env)) !! j)
     /\ length (items (cart (fst (addToCart item env))))
        = length (items (cart (safeGet env))))
  /\ (forall (w : Window) (again : CartItem),
        (forall line, line ∈ items (cart (safeGet (Some w))) -> sameKey line item = false) ->
        sameKey item again = true -> qty item = 2 -> qty again = 3 ->
        readsBack JSON_parse JSON_stringify (fst (addToCart item (Some w))) ->
        items (cart (fst (addToCart again (snd (addToCart item (Some w))))))
        = items (cart (safeGet (Some w)))
          ++ [mkItem (id item) 5 (name item) (price item) (image item) (sku item)
                     (color item) (size item)])
  /\ (forall a b : CartItem,
        sameKey a b = true <->
        idToString (id a) = idToString (id b) /\ sku a = sku b
        /\ color a = color b /\ size a = size b)
  /\ (forall s : string, idToString (IdString s) = s)
  /\ idToString (IdNumber 7) = "7" /\ idToString (IdNumber 120) = "120".
Proof.
  split; [|split; [|split; [|split; [|split]]]]; try reflexivity.
  - intros Hex.
    destruct (addToCart_existing item env Hex) as (idx & line & Hl & Hk & Hleast & Heq).
    exists idx, line. split; [exact Hl|]. split; [exact Hk|]. split; [exact Hleast|].
    split; [exact Heq|]. split; [|split].
    + exists (mkItem (id line) (qty line + qty item) (name line) (price line)
                     (image line) (sku line) (color line) (size line)).
      split; [|reflexivity]. rewrite Heq.
      apply list_lookup_insert_eq. now apply lookup_lt_Some in Hl.
    + intros j Hj. rewrite Heq. now apply list_lookup_insert_ne.
    + rewrite Heq. apply length_insert.
  - intros w again. apply addToCart_twice.
  - apply sameKey_true.
Qed.

(** C8. On content that is missing, is not valid JSON or has no cart
    field, [getCart] answers the empty cart, with both totals 0. *)
Theorem getCart_fallback (env : Env) :
  unusable JSON_parse env ->
  getCart env = emptyState
  /\ items (cart (getCart env)) = []
  /\ totalQty (cart (getCart env)) = 0
  /\ totalPrice (cart (getCart env)) = 0.
Proof.
  intros Hu.
  assert (H : getCart env = emptyState).
  { unfold Cart.getCart, Cart.safeGet. destruct env as [w|]; [|reflexivity].
    simpl in Hu. destruct (localStorage w !! KEY) as [data|]; [|reflexivity].
    case_bool_decide; [reflexivity|].
    destruct Hu as [Hu|[Hu|[Hu|Hu]]]; [contradiction| | |]; now rewrite Hu. }
  rewrite H. repeat split.
Qed.

(** C10. The state returned by [addToCart], [setQty], [removeFromCart] and
    [clearCart] carries the totals of its lines and is not loading;
    [getCart] hands out a stored cart as it is, so a stored cart whose
    totals do not match its lines comes back inconsistent. *)
Theorem mutations_consistent (env : Env) (item : CartItem) (i : ProductId)
    (q : Z) (options : option ItemOptions) :
  consistent (fst (addToCart item env))
  /\ consistent (fst (setQty i q options env))
  /\ consistent (fst (removeFromCart i options env))
  /\ consistent (fst (clearCart env))
  /\ (forall (w : Window) (data : string) (c : Cart),
        localStorage w !! KEY = Some data -> data <> EmptyString ->
        JSON_parse data = Some (WithCart c) ->
        getCart (Some w) = mkState c false None
        /\ (~ (totalQty c = sumQty (items c) /\ totalPrice c = sumPrice (items c)) ->
            ~ consistent (getCart (Some w)))).
Proof.
  do 4 (split; [apply recalc_consistent|]).
  intros w data c Hw Hne Hparse. split.
  - now apply (safeGet_stored w data c).
  - intros Hbad Hcons. unfold Cart.getCart in Hcons.
    rewrite (safeGet_stored w data c) in Hcons by assumption.
    destruct Hcons as (Hq & Hp & _). apply Hbad. now split.
Qed.

End Store.

Lemma addToCart_same_key_witness :
  items (cart (fst (addToCart sampleParse sampleStringify
                      (mkItem (IdString "7") 3 "Pen" 150 None "PEN-01" (Some "blue") None)
                      (Some (windowWith "two")))))
  = [mkItem (IdNumber 7) 5 "Pen" 120 None "PEN-01" (Some "blue") None]
  /\ items (cart (fst (addToCart sampleParse sampleStringify (pen 3)
                         (snd (addToCart sampleParse sampleStringify (pen 2)
                                 (Some freshWindow))))))
     = [mkItem (IdNumber 7) 5 "Pen" 120 None "PEN-01" (Some "blue") None].
Proof.
  split.
  - destruct (proj1 (addToCart_same_key sampleParse sampleStringify
                       (mkItem (IdString "7") 3 "Pen" 150 None "PEN-01" (Some "blue") None)
                       (Some (windowWith "two"))))
      as (idx & line & Hl & _ & _ & Heq & _).
    + exists (pen 2). split; [|reflexivity].
      vm_compute. apply list_elem_of_here.
    + rewrite Heq. destruct idx as [|idx]; vm_compute in Hl; [|discriminate Hl].
      injection Hl as <-. reflexivity.
  - apply (proj1 (proj2 (addToCart_same_key sampleParse sampleStringify (pen 2) None))
             freshWindow (pen 3)).
    + intros line Hin. vm_compute in Hin. inversion Hin.
    + reflexivity.
    + reflexivity.
    + reflexivity.
    + split; [discriminate | reflexivity].
Defined.

Lemma getCart_fallback_witness :
  getCart sampleParse (Some (windowWith "not json")) = emptyState
  /\ items (cart (getCart sampleParse (Some (windowWith "not json")))) = []
  /\ totalQty (cart (getCart sampleParse (Some (windowWith "not json")))) = 0
  /\ totalPrice (cart (getCart sampleParse (Some (windowWith "not json")))) = 0.
Proof.
  apply (getCart_fallback sampleParse (Some (windowWith "not json"))).
  vm_compute. right. left. reflexivity.
Defined.

Lemma mutations_consistent_witness :
  getCart sampleParse (Some (windowWith "odd")) = mkState (mkCart [pen 2] 7 0) false None
  /\ ~ consistent (getCart sampleParse (Some (windowWith "odd"))).
Proof.
  destruct (proj2 (proj2 (proj2 (proj2
    (mutations_consistent sampleParse sampleStringify None (pen 1) (IdNumber 7) 1 None))))
    (windowWith "odd") "odd" (mkCart [pen 2] 7 0)) as [Hget Hbad];
    [reflexivity | discriminate | reflexivity |].
  split; [exact Hget|]. apply Hbad. vm_compute. intros [H _]. discriminate H.
Defined.

End CartFacts.

(** * Properties of the RUT validator *)
Module RutFacts.
Import Rut.

(** ** Normalisation *)

Lemma chars_removeAll x s :
  list_ascii_of_string (removeAll x s)
  = List.filter (fun c => negb (bool_decide (c = x))) (list_ascii_of_string s).
Proof.
  induction s as [|c s IH]; simpl; [reflexivity|].
  case_bool_decide; simpl; now rewrite IH.
Qed.

Lemma chars_toUpperCase s :
  list_ascii_of_string (toUpperCase s) = List.map upperChar (list_ascii_of_string s).
Proof. induction s as [|c s IH]; simpl; [reflexivity | now rewrite IH]. Qed.

Lemma filter_filter {A} (f g : A -> bool) l :
  List.filter g (List.filter f l) = List.filter (fun x => f x && g x) l.
Proof.
  induction l as [|x l IH]; simpl; [reflexivity|].
  destruct (f x); simpl; [destruct (g x)|]; now rewrite IH.
Qed.

Lemma chars_cleanRut rut :
  list_ascii_of_string (cleanRut rut)
  = List.map upperChar
      (List.filter (fun c => negb (bool_decide (c = "."%char))
                             && negb (bool_decide (c = "-"%char)))
                   (list_ascii_of_string rut)).
Proof.
  unfold cleanRut. now rewrite chars_toUpperCase, !chars_removeAll, filter_filter.
Qed.

(** ** Slices *)

Lemma sliceInit_snoc body dv :
  sliceInit (string_of_list_ascii (body ++ [dv])) = string_of_list_ascii body.
Proof.
  induction body as [|c body IH]; [reflexivity|].
  cbn [app string_of_list_ascii sliceInit]. rewrite IH.
  destruct body; reflexivity.
Qed.

Lemma sliceLast_snoc body dv :
  sliceLast (string_of_list_ascii (body ++ [dv])) = String dv EmptyString.
Proof.
  induction body as [|c body IH]; [reflexivity|].
  cbn [app string_of_list_ascii sliceLast]. rewrite IH.
  destruct body; reflexivity.
Qed.

(** ** The pattern *)

Lemma rutPattern_true c :
  rutPattern c = true <-> exists body dv, shaped (list_ascii_of_string c) body dv.
Proof.
  unfold rutPattern, shaped. split.
  - destruct (rev (list_ascii_of_string c)) as [|dv rbody] eqn:E; [discriminate|].
    rewrite !andb_true_iff, orb_true_iff, bool_decide_eq_true.
    rewrite !Nat.leb_le, forallb_forall.
    intros (((Hlo & Hhi) & Hd) & Hdv).
    exists (rev rbody), dv. rewrite length_rev. split; [|split; [lia|split; [|exact Hdv]]].
    + apply (f_equal (@rev ascii)) in E. rewrite rev_involutive in E. exact E.
    + apply Forall_forall. intros x Hx. apply Hd.
      apply list_elem_of_In in Hx. now apply in_rev.
  - intros (body & dv & -> & Hlen & Hd & Hdv).
    rewrite rev_app_distr. cbn [rev app].
    rewrite !andb_true_iff, orb_true_iff, bool_decide_eq_true.
    rewrite !Nat.leb_le, forallb_forall, length_rev.
    repeat split; try lia; auto.
    intros x Hx. apply in_rev in Hx. rewrite Forall_forall in Hd.
    apply Hd. now apply list_elem_of_In.
Qed.

(** ** The loop of [calcDV] *)

Lemma isDigit_value c : isDigit c = true -> 0 <= digitValue c <= 9.
Proof.
  unfold isDigit, digitValue. rewrite andb_true_iff, !Z.leb_le. lia.
Qed.

Lemma charToNumber_digit c : isDigit c = true -> charToNumber c = Some (digitValue c).
Proof. unfold charToNumber. now intros ->. Qed.

Lemma weight_rem (i : nat) : 9 - Z.rem (Z.of_nat i) 6 = 11 - weight i.
Proof.
  unfold weight. rewrite Z.rem_mod_nonneg by lia.
  rewrite Nat2Z.inj_mod. simpl Z.of_nat. lia.
Qed.

Lemma weight_range (i : nat) : 2 <= weight i <= 7.
Proof.
  unfold weight. pose proof (Nat.mod_upper_bound i 6). lia.
Qed.

Lemma calcDVLoop_digits l : forall (i : nat) (s : Z),
  0 <= s < 11 ->
  Forall (fun c => isDigit c = true) l ->
  calcDVLoop l (Z.of_nat i) (Some s)
  = Some ((s - weightedSum i (List.map digitValue l)) mod 11).
Proof.
  induction l as [|c l IH]; intros i s Hs Hd.
  - simpl. rewrite Z.sub_0_r, Z.mod_small by lia. reflexivity.
  - apply Forall_cons in Hd as [Hc Hl].
    pose proof (isDigit_value c Hc) as Hv. pose proof (weight_range i) as Hw.
    cbn [calcDVLoop List.map weightedSum]. rewrite (charToNumber_digit c Hc).
    rewrite weight_rem.
    rewrite Z.rem_mod_nonneg by nia.
    replace (Z.of_nat i + 1) with (Z.of_nat (S i)) by lia.
    rewrite IH; [|apply Z.mod_pos_bound; lia | exact Hl].
    f_equal. rewrite Zminus_mod_idemp_l.
    replace (s + digitValue c * (11 - weight i) - weightedSum (S i) (List.map digitValue l))
      with (s - (digitValue c * weight i + weightedSum (S i) (List.map digitValue l))
            + digitValue c * 11) by lia.
    apply Z_mod_plus_full.
Qed.

(** On a body of digits the loop of the code and the textbook algorithm
    give the same check digit. *)
Lemma calcDV_mod11 body :
  Forall (fun c => isDigit c = true) body ->
  calcDV (string_of_list_ascii body) = mod11CheckDigit body.
Proof.
  intros Hd. unfold calcDV, mod11CheckDigit.
  rewrite list_ascii_of_string_of_list_ascii.
  change (calcDVLoop (rev body) 0 (Some 1))
    with (calcDVLoop (rev body) (Z.of_nat 0) (Some 1)).
  rewrite (calcDVLoop_digits (rev body) 0 1); [|lia|].
  2:{ apply Forall_forall. intros x Hx. rewrite Forall_forall in Hd. apply Hd.
      apply list_elem_of_In. apply in_rev. now apply list_elem_of_In. }
  set (total := weightedSum 0 (List.map digitValue (rev body))).
  rewrite <- Zminus_mod_idemp_r.
  pose proof (Z.mod_pos_bound total 11 ltac:(lia)) as Ht.
  set (t := total mod 11) in *.
  destruct (Z.eq_dec t 0) as [E0|N0].
  - rewrite E0. reflexivity.
  - destruct (Z.eq_dec t 1) as [E1|N1].
    + rewrite E1. reflexivity.
    + assert (Hm : (1 - t) mod 11 = 12 - t).
      { symmetry. apply (Z.mod_unique _ _ (-1)); lia. }
      rewrite Hm.
      destruct (Z.eqb_spec (12 - t) 0); [lia|].
      destruct (Z.eqb_spec (11 - t) 11); [lia|].
      destruct (Z.eqb_spec (11 - t) 10); [lia|].
      f_equal. lia.
Qed.

(** ** [validateRut] *)

Lemma validateRut_true rut :
  validateRut rut = true <->
  exists body dv,
    shaped (list_ascii_of_string (cleanRut rut)) body dv
    /\ mod11CheckDigit body = String dv EmptyString.
Proof.
  unfold validateRut. split.
  - destruct (rutPattern (cleanRut rut)) eqn:Ep; [|discriminate].
    apply rutPattern_true in Ep as (body & dv & Hs).
    cbn [negb]. rewrite bool_decide_eq_true. intros Hdv.
    exists body, dv. split; [exact Hs|].
    destruct Hs as (Hc & _ & Hd & _).
    rewrite <- (string_of_list_ascii_of_string (cleanRut rut)), Hc in Hdv.
    rewrite sliceInit_snoc, sliceLast_snoc in Hdv.
    now rewrite <- calcDV_mod11.
  - intros (body & dv & Hs & Hdv).
    assert (Ep : rutPattern (cleanRut rut) = true) by (apply rutPattern_true; eauto).
    rewrite Ep. cbn [negb]. apply bool_decide_eq_true.
    destruct Hs as (Hc & _ & Hd & _).
    rewrite <- (string_of_list_ascii_of_string (cleanRut rut)), Hc.
    rewrite sliceInit_snoc, sliceLast_snoc.
    now rewrite calcDV_mod11.
Qed.

Lemma printDisabled_true rut :
  printDisabled rut = true <-> rut <> EmptyString /\ validateRut rut = false.
Proof.
  unfold printDisabled, rutOk, truthy.
  case_bool_decide as E; cbn [negb].
  - rewrite andb_false_r. split; [discriminate | tauto].
  - rewrite andb_true_r, negb_true_iff. tauto.
Qed.

Lemma upperChar_upperLetter c : upperChar c = upperLetter c.
Proof. destruct c as [[] [] [] [] [] [] [] []]; vm_compute; reflexivity. Qed.

Lemma chars_cleanRut_normalised rut :
  list_ascii_of_string (cleanRut rut) = normalised rut.
Proof.
  rewrite chars_cleanRut. unfold normalised.
  apply map_ext. apply upperChar_upperLetter.
Qed.

(** C9. [validateRut] holds exactly of the texts that, once dots and
    hyphens are removed and the letters are put in upper case, are 1 to 8
    digits followed by a digit or ["K"] which is the modulus 11 check digit
    of those digits; the print button is disabled exactly for a text that
    is not empty and not valid, and the field takes any text typed. *)
Theorem validateRut_spec (rut : string) :
  list_ascii_of_string (cleanRut rut) = normalised rut
  /\ (validateRut rut = true <->
      exists body dv,
        shaped (normalised rut) body dv
        /\ mod11CheckDigit body = String dv EmptyString)
  /\ (printDisabled rut = true <-> rut <> EmptyString /\ validateRut rut = false)
  /\ (forall value : string, onRutChange value rut = value).
Proof.
  split; [apply chars_cleanRut_normalised|].
  split; [rewrite <- chars_cleanRut_normalised; apply validateRut_true|].
  split; [apply printDisabled_true|].
  reflexivity.
Qed.

Lemma validateRut_spec_witness :
  validateRut "12.345.678-5" = true
  /\ validateRut "6-k" = true
  /\ printDisabled "12.345.678-9" = true
  /\ onRutChange "12.345.678-9" "12.345.678-" = "12.345.678-9".
Proof.
  split; [|split; [|split]].
  - apply (proj2 (proj1 (proj2 (validateRut_spec "12.345.678-5")))).
    exists (list_ascii_of_string "12345678"), "5"%char.
    split; [|reflexivity].
    split; [reflexivity|]. split; [simpl; lia|].
    split; [|left; reflexivity].
    repeat constructor.
  - apply (proj2 (proj1 (proj2 (validateRut_spec "6-k")))).
    exists (list_ascii_of_string "6"), "K"%char.
    split; [|reflexivity].
    split; [reflexivity|]. split; [simpl; lia|].
    split; [|right; reflexivity].
    repeat constructor.
  - apply (proj2 (proj1 (proj2 (proj2 (validateRut_spec "12.345.678-9"))))).
    split; [discriminate | reflexivity].
  - apply (proj2 (proj2 (proj2 (validateRut_spec "12.345.678-")))).
Defined.

End RutFacts.

(** * Sorting with a comparator *)
Module SortFacts.

Lemma StronglySorted_weaken {A} (R R' : A -> A -> Prop) (l : list A) :
  (forall a b, R a b -> R' a b) -> StronglySorted R l -> StronglySorted R' l.
Proof.
  intros HR. induction 1 as [|x l Hl IH Hx]; constructor; [exact IH|].
  eapply Forall_impl; [exact Hx|]. intros y. apply HR.
Qed.

Section Any.
Context {A : Type} (cmp : A -> A -> Z).

Lemma insertWith_Permutation x l : Permutation (insertWith cmp x l) (x :: l).
Proof.
  induction l as [|y l IH]; simpl; [reflexivity|].
  destruct (cmp x y <=? 0); [reflexivity|].
  rewrite IH. apply perm_swap.
Qed.

Lemma sortWith_Permutation l : Permutation (sortWith cmp l) l.
Proof.
  induction l as [|x l IH]; simpl; [reflexivity|].
  rewrite insertWith_Permutation. now constructor.
Qed.

End Any.

Section ByKey.
Context {A : Type} (cmp : A -> A -> Z) (key : A -> Z).
Hypothesis cmp_key : forall a b, cmp a b <= 0 <-> key a <= key b.

Lemma insertWith_sorted x l :
  StronglySorted (fun a b => key a <= key b) l ->
  StronglySorted (fun a b => key a <= key b) (insertWith cmp x l).
Proof.
  induction 1 as [|y l Hl IH Hy]; simpl.
  - repeat constructor.
  - destruct (Z.leb_spec (cmp x y) 0) as [Hc|Hc].
    + assert (Hxy : key x <= key y) by now apply cmp_key.
      constructor; [now constructor|].
      constructor; [exact Hxy|].
      rewrite Forall_forall in *. intros z Hz. specialize (Hy z Hz). lia.
    + assert (Hyx : key y <= key x).
      { destruct (Z.le_gt_cases (key x) (key y)) as [H|H]; [|lia].
        apply cmp_key in H. lia. }
      constructor; [exact IH|].
      rewrite Forall_forall in *. intros z Hz.
      apply list_elem_of_In in Hz.
      apply (Permutation_in _ (insertWith_Permutation cmp x l)) in Hz.
      destruct Hz as [<-|Hz]; [exact Hyx|].
      apply Hy. now apply list_elem_of_In.
Qed.

Lemma sortWith_sorted l :
  StronglySorted (fun a b => key a <= key b) (sortWith cmp l).
Proof.
  induction l as [|x l IH]; simpl; [constructor|].
  now apply insertWith_sorted.
Qed.

Lemma insertWith_stable k x l :
  List.filter (fun a => key a =? k) (insertWith cmp x l)
  = List.filter (fun a => key a =? k) (x :: l).
Proof.
  induction l as [|y l IH]; [reflexivity|].
  cbn [insertWith]. destruct (Z.leb_spec (cmp x y) 0) as [Hc|Hc]; [reflexivity|].
  assert (Hlt : key y < key x).
  { destruct (Z.le_gt_cases (key x) (key y)) as [H|H]; [|lia].
    apply cmp_key in H. lia. }
  cbn [List.filter] in *. rewrite IH.
  destruct (Z.eqb_spec (key x) k), (Z.eqb_spec (key y) k); try reflexivity; lia.
Qed.

Lemma sortWith_stable k l :
  List.filter (fun a => key a =? k) (sortWith cmp l)
  = List.filter (fun a => key a =? k) l.
Proof.
  induction l as [|x l IH]; [reflexivity|].
  cbn [sortWith foldr]. fold (sortWith cmp l).
  rewrite insertWith_stable. cbn [List.filter]. now rewrite IH.
Qed.

End ByKey.

End SortFacts.

(** * Further properties of the pricing engine *)
Module PricingMore.
Import Pricing PricingFacts.

Lemma insertBreak_insertWith b l :
  insertBreak b l = insertWith (fun a b => minQty a - minQty b) b l.
Proof.
  induction l as [|c l IH]; [reflexivity|]. simpl. rewrite IH.
  destruct (Z.leb_spec (minQty b) (minQty c)), (Z.leb_spec (minQty b - minQty c) 0);
    try reflexivity; lia.
Qed.

Lemma sortByMinQty_sortWith l :
  sortByMinQty l = sortWith (fun a b => minQty a - minQty b) l.
Proof.
  induction l as [|b l IH]; [reflexivity|].
  simpl. fold (sortByMinQty l). now rewrite insertBreak_insertWith, IH.
Qed.

(** X1. [sortBreaks] returns the product's breaks, each as often as it is
    listed, in ascending order of [minQty], breaks of equal [minQty] in the
    order they are listed in; without breaks it returns the empty list. *)
Theorem sortBreaks_sorted_stable (P : Product) :
  Permutation (sortBreaks P) (breaksOf P)
  /\ length (sortBreaks P) = length (breaksOf P)
  /\ StronglySorted (fun a b => minQty a <= minQty b) (sortBreaks P)
  /\ (forall k : Z,
        List.filter (fun b => minQty b =? k) (sortBreaks P)
        = List.filter (fun b => minQty b =? k) (breaksOf P))
  /\ (priceBreaks P = None -> sortBreaks P = []).
Proof.
  unfold sortBreaks. rewrite sortByMinQty_sortWith.
  assert (Hk : forall a b : PriceBreak, minQty a - minQty b <= 0 <-> minQty a <= minQty b)
    by (intros; lia).
  split; [apply SortFacts.sortWith_Permutation|].
  split; [apply Permutation_length, SortFacts.sortWith_Permutation|].
  split; [now apply SortFacts.sortWith_sorted|].
  split; [intros k; now apply SortFacts.sortWith_stable|].
  intros HN. unfold breaksOf. now rewrite HN.
Qed.

Lemma sortBreaks_sorted_stable_witness :
  sortBreaks (mkProduct (IdNumber 4) "S" "N" 10 1 None) = [].
Proof.
  apply (proj2 (proj2 (proj2 (proj2
    (sortBreaks_sorted_stable (mkProduct (IdNumber 4) "S" "N" 10 1 None)))))).
  reflexivity.
Defined.

(** ** Bounds on the percentage *)

Lemma getUnitPriceForQty_nonneg P q :
  0 <= basePrice P -> (forall b, In b (breaksOf P) -> 0 <= price b) ->
  0 <= getUnitPriceForQty P q.
Proof.
  intros Hb Hp. unfold getUnitPriceForQty.
  destruct (getBestBreakForQty P q) as [b|] eqn:E; [|exact Hb].
  apply getBestBreakForQty_Some in E as [[Hin _] _].
  specialize (Hp b Hin). lia.
Qed.

Lemma percent_le_100 (a b : Z) :
  a <= b -> 0 < b -> (inject_Z a / inject_Z b * 100 <= 100)%Q.
Proof.
  intros Hab Hb.
  assert (H1 : (inject_Z a / inject_Z b <= 1)%Q).
  { apply Qle_shift_div_r.
    - change 0%Q with (inject_Z 0). now rewrite <- Zlt_Qlt.
    - rewrite Qmult_1_l. now rewrite <- Zle_Qle. }
  apply (Qmult_le_compat_r _ _ 100) in H1; [|discriminate].
  exact H1.
Qed.

Lemma percent_pos (a b : Z) :
  0 < b -> ((0 < inject_Z a / inject_Z b * 100)%Q <-> 0 < a).
Proof.
  intros Hb.
  assert (HbQ : (0 < inject_Z b)%Q)
    by (change 0%Q with (inject_Z 0); now rewrite <- Zlt_Qlt).
  split.
  - intros Hpos. destruct (Z.lt_ge_cases 0 a) as [Ha|Ha]; [exact Ha|exfalso].
    apply (Qlt_not_le _ _ Hpos).
    assert (H0 : (inject_Z a / inject_Z b <= 0)%Q).
    { apply Qle_shift_div_r; [exact HbQ|].
      rewrite Qmult_0_l. change 0%Q with (inject_Z 0). now rewrite <- Zle_Qle. }
    apply (Qmult_le_compat_r _ _ 100) in H0; [|discriminate].
    exact H0.
  - intros Ha. apply Qmult_lt_0_compat; [|reflexivity].
    apply Qlt_shift_div_l; [exact HbQ|].
    rewrite Qmult_0_l. change 0%Q with (inject_Z 0). now rewrite <- Zlt_Qlt.
Qed.

(** X2. With a base price and a quantity that are not negative and no
    break priced below 0, the percentage lies between 0 and 100. *)
Theorem getDiscountPercent_bounds (P : Product) (q : Z) :
  0 <= q -> 0 <= basePrice P ->
  (forall b, In b (breaksOf P) -> 0 <= price b) ->
  (0 <= getDiscountPercent P q)%Q /\ (getDiscountPercent P q <= 100)%Q.
Proof.
  intros Hq Hb Hp. split; [apply getDiscountPercent_nonneg; now left|].
  destruct (Z.le_gt_cases (basePrice P * q) 0) as [H|H].
  - rewrite getDiscountPercent_guarded by exact H. discriminate.
  - rewrite getDiscountPercent_unguarded by exact H.
    apply percent_le_100; [|exact H].
    pose proof (getUnitPriceForQty_nonneg P q Hb Hp).
    assert (0 <= getUnitPriceForQty P q * q) by (apply Z.mul_nonneg_nonneg; lia).
    lia.
Qed.

Lemma getDiscountPercent_bounds_witness :
  (0 <= getDiscountPercent sample 60)%Q /\ (getDiscountPercent sample 60 <= 100)%Q.
Proof.
  apply (getDiscountPercent_bounds sample 60); [lia | simpl; lia |].
  intros b [<-|[<-|[]]]; simpl; lia.
Defined.

(** X3. For a positive base price and quantity, the percentage is positive
    exactly when the unit price is below the base price, which is exactly
    when a break that the quantity reaches is priced below the base
    price. *)
Theorem getDiscountPercent_positive_iff (P : Product) (q : Z) :
  0 < q -> 0 < basePrice P ->
  ((0 < getDiscountPercent P q)%Q <-> getUnitPriceForQty P q < basePrice P)
  /\ (getUnitPriceForQty P q < basePrice P <->
      exists b, In b (breaksOf P) /\ minQty b <= q /\ price b < basePrice P).
Proof.
  intros Hq Hb. split.
  - assert (H : 0 < basePrice P * q) by (apply Z.mul_pos_pos; lia).
    rewrite getDiscountPercent_unguarded by exact H.
    rewrite percent_pos by exact H.
    rewrite <- Z.mul_sub_distr_r. split; intros Hlt; [nia|].
    apply Z.mul_pos_pos; lia.
  - unfold getUnitPriceForQty.
    destruct (getBestBreakForQty P q) as [b|] eqn:E.
    + apply getBestBreakForQty_Some in E as [[Hin Hmq] Hall]. split.
      * intros Hlt. exists b. repeat split; auto. lia.
      * intros (c & Hc & Hcq & Hcp).
        destruct (Hall c (conj Hc Hcq)) as [?|[? _]]; lia.
    + split; [lia|]. intros (c & Hc & Hcq & _). exfalso.
      apply (proj1 (getBestBreakForQty_None P q) E c). now split.
Qed.

Lemma getDiscountPercent_positive_iff_witness :
  (0 < getDiscountPercent sample 10)%Q.
Proof.
  apply (proj1 (getDiscountPercent_positive_iff sample 10 ltac:(lia) ltac:(simpl; lia))).
  vm_compute. reflexivity.
Defined.

(** ** The order of the breaks does not matter *)

Lemma eligible_Permutation P P' q b :
  Permutation (breaksOf P) (breaksOf P') -> eligible P q b -> eligible P' q b.
Proof.
  intros Hp [Hin Hq]. split; [|exact Hq]. now apply (Permutation_in _ Hp).
Qed.

Lemma noWorse_antisym b c :
  noWorse b c -> noWorse c b -> minQty b = minQty c /\ price b = price c.
Proof. unfold noWorse. lia. Qed.

(** X4. Listing the same breaks in another order changes neither the
    threshold and price of the break selected nor, for the same base
    price, the unit price and the percentage. *)
Theorem getBestBreakForQty_order_irrelevant (P P' : Product) (q : Z) :
  Permutation (breaksOf P) (breaksOf P') ->
  (fun b => (minQty b, price b)) <$> getBestBreakForQty P q
  = (fun b => (minQty b, price b)) <$> getBestBreakForQty P' q
  /\ (basePrice P = basePrice P' ->
      getUnitPriceForQty P q = getUnitPriceForQty P' q
      /\ getDiscountPercent P q = getDiscountPercent P' q).
Proof.
  intros Hp.
  assert (Hbest : (fun b => (minQty b, price b)) <$> getBestBreakForQty P q
                  = (fun b => (minQty b, price b)) <$> getBestBreakForQty P' q).
  { destruct (getBestBreakForQty P q) as [b|] eqn:E, (getBestBreakForQty P' q) as [b'|] eqn:E'.
    - apply getBestBreakForQty_Some in E as [He Hall], E' as [He' Hall'].
      assert (H1 : noWorse b b') by (apply Hall; eapply eligible_Permutation; [symmetry|]; eauto).
      assert (H2 : noWorse b' b) by (apply Hall'; eapply eligible_Permutation; eauto).
      destruct (noWorse_antisym b b' H1 H2) as [Hm Hpr]. simpl. now rewrite Hm, Hpr.
    - apply getBestBreakForQty_Some in E as [He _]. exfalso.
      apply (proj1 (getBestBreakForQty_None P' q) E' b).
      eapply eligible_Permutation; eauto.
    - apply getBestBreakForQty_Some in E' as [He' _]. exfalso.
      apply (proj1 (getBestBreakForQty_None P q) E b').
      eapply eligible_Permutation; [symmetry|]; eauto.
    - reflexivity. }
  split; [exact Hbest|]. intros Hbase.
  assert (Hunit : getUnitPriceForQty P q = getUnitPriceForQty P' q).
  { unfold getUnitPriceForQty.
    destruct (getBestBreakForQty P q) as [b|], (getBestBreakForQty P' q) as [b'|];
      simpl in Hbest; try discriminate; [|exact Hbase].
    injection Hbest as _ Hprice. now rewrite Hprice, Hbase. }
  split; [exact Hunit|].
  unfold getDiscountPercent. now rewrite Hunit, Hbase.
Qed.

Lemma getBestBreakForQty_order_irrelevant_witness :
  getUnitPriceForQty sample 60
  = getUnitPriceForQty
      (mkProduct (IdNumber 1) "SKU-1" "Mug" 1000 500
         (Some [mkBreak 50 800 None; mkBreak 10 900 None])) 60.
Proof.
  apply (proj2 (getBestBreakForQty_order_irrelevant sample
                  (mkProduct (IdNumber 1) "SKU-1" "Mug" 1000 500
                     (Some [mkBreak 50 800 None; mkBreak 10 900 None])) 60
                  (perm_swap _ _ _))).
  reflexivity.
Defined.

End PricingMore.

(** * Properties of the catalogue page *)
Module CatalogFacts.
Import Pricing PricingFacts Catalog.

(** ** [productMinUnitPrice] *)

Lemma productMinUnitPrice_fold p :
  productMinUnitPrice p
  = fold_left (fun m b => if price b <? m then price b else m) (breaksOf p) (basePrice p).
Proof.
  unfold productMinUnitPrice, breaksOf.
  destruct (priceBreaks p) as [[|b l]|]; reflexivity.
Qed.

Lemma fold_min_price l : forall m,
  let r := fold_left (fun m b => if price b <? m then price b else m) l m in
  r <= m /\ (forall b, In b l -> r <= price b)
  /\ (r = m \/ exists b, In b l /\ r = price b).
Proof.
  induction l as [|c l IH]; intros m; cbn [fold_left].
  - split; [lia|]. split; [intros b []|now left].
  - destruct (IH (if price c <? m then price c else m)) as (Hle & Hall & Hat).
    destruct (Z.ltb_spec (price c) m) as [Hc|Hc].
    + split; [lia|]. split.
      * intros b [<-|Hb]; [exact Hle | now apply Hall].
      * right. destruct Hat as [->|(b & Hb & ->)]; [exists c | exists b]; simpl; auto.
    + split; [exact Hle|]. split.
      * intros b [<-|Hb]; [lia | now apply Hall].
      * destruct Hat as [->|(b & Hb & ->)]; [now left | right; exists b]; simpl; auto.
Qed.

(** X5. [productMinUnitPrice] is the least of the base price and the
    prices of the breaks: it is not above any of them and it is one of
    them. *)
Theorem productMinUnitPrice_least (p : Product) :
  productMinUnitPrice p <= basePrice p
  /\ (forall b, In b (breaksOf p) -> productMinUnitPrice p <= price b)
  /\ (productMinUnitPrice p = basePrice p
      \/ exists b, In b (breaksOf p) /\ productMinUnitPrice p = price b).
Proof.
  rewrite productMinUnitPrice_fold. apply fold_min_price.
Qed.

Lemma productMinUnitPrice_least_witness :
  productMinUnitPrice sample <= 800.
Proof.
  apply (proj1 (proj2 (productMinUnitPrice_least sample)) (mkBreak 50 800 None)).
  simpl. tauto.
Defined.

(** X6. The price the catalogue shows is a lower bound of the unit price of
    the calculator at every quantity, and it is the unit price at any
    quantity that reaches every threshold. *)
Theorem productMinUnitPrice_unit_price (p : Product) (q : Z) :
  productMinUnitPrice p <= getUnitPriceForQty p q
  /\ ((forall b, In b (breaksOf p) -> minQty b <= q) ->
      getUnitPriceForQty p q = productMinUnitPrice p).
Proof.
  pose proof (fold_min_price (breaksOf p) (basePrice p)) as (Hle & Hall & Hat).
  rewrite <- productMinUnitPrice_fold in Hle, Hall, Hat.
  unfold getUnitPriceForQty.
  destruct (getBestBreakForQty p q) as [best|] eqn:E.
  - apply getBestBreakForQty_Some in E as [[Hin Hq] Hbest].
    pose proof (Hall best Hin) as Hb. split; [lia|].
    intros Hreach. destruct Hat as [Hat|(b & Hb' & Hat)]; [lia|].
    assert (Hnw : noWorse best b) by (apply Hbest; split; auto).
    unfold noWorse in Hnw. lia.
  - split; [lia|]. intros Hreach.
    destruct Hat as [Hat|(b & Hb' & Hat)]; [lia|]. exfalso.
    apply (proj1 (getBestBreakForQty_None p q) E b). split; auto.
Qed.

Lemma productMinUnitPrice_unit_price_witness :
  getUnitPriceForQty sample 50 = productMinUnitPrice sample.
Proof.
  apply (proj2 (productMinUnitPrice_unit_price sample 50)).
  intros b [<-|[<-|[]]]; simpl; lia.
Defined.

(** ** [filterProducts] *)

Lemma filter_when {A} (c : bool) (f : A -> bool) l :
  (if c then List.filter f l else l) = List.filter (fun x => negb c || f x) l.
Proof.
  destruct c; simpl; [reflexivity|].
  induction l as [|x l IH]; simpl; [reflexivity | now rewrite <- IH].
Qed.

Lemma filter_twice {A} (f g : A -> bool) l :
  List.filter g (List.filter f l) = List.filter (fun x => f x && g x) l.
Proof.
  induction l as [|x l IH]; simpl; [reflexivity|].
  destruct (f x); simpl; [destruct (g x)|]; now rewrite IH.
Qed.

Lemma filter_price_range lo hi (l : list Listing) :
  (if negb (bool_decide (lo = None)) || negb (bool_decide (hi = None))
   then List.filter (fun x => inPriceRange lo hi (productMinUnitPrice (product x))) l
   else l)
  = List.filter (fun x => inPriceRange lo hi (productMinUnitPrice (product x))) l.
Proof.
  destruct lo, hi; try reflexivity. simpl.
  induction l as [|x l IH]; simpl; [reflexivity | now rewrite <- IH].
Qed.

Section Page.
Variable localeCompare : string -> string -> Z.
Variable allProducts : list Listing.

Local Abbreviation filterProducts := (Catalog.filterProducts localeCompare allProducts).
Local Abbreviation handleSupplierChange :=
  (Catalog.handleSupplierChange localeCompare allProducts).
Local Abbreviation handleSortChange := (Catalog.handleSortChange localeCompare allProducts).
Local Abbreviation handleClearFilters := (Catalog.handleClearFilters localeCompare allProducts).
Local Abbreviation initialPage := (Catalog.initialPage allProducts).
Local Abbreviation listed := (Catalog.listed allProducts).

Lemma filterProducts_listed sup cat search sort lo hi :
  filterProducts sup cat search sort lo hi
  = let l := listed sup cat search lo hi in
    if bool_decide (sort = "name") then
      sortWith (fun a b => localeCompare (name (product a)) (name (product b))) l
    else if bool_decide (sort = "+price") then
      sortWith (fun a b => productMinUnitPrice (product b) - productMinUnitPrice (product a)) l
    else if bool_decide (sort = "-price") then
      sortWith (fun a b => productMinUnitPrice (product a) - productMinUnitPrice (product b)) l
    else if bool_decide (sort = "stock") then
      sortWith (fun a b => stock (product b) - stock (product a)) l
    else l.
Proof.
  unfold Catalog.filterProducts, listed. cbv zeta.
  rewrite filter_price_range, !filter_when, !filter_twice.
  replace (List.filter _ allProducts)
    with (List.filter (passes sup cat search lo hi) allProducts); [reflexivity|].
  apply filter_ext. intros x. unfold passes.
  now rewrite negb_involutive, !andb_assoc.
Qed.

Lemma filterProducts_Permutation sup cat search sort lo hi :
  Permutation (filterProducts sup cat search sort lo hi) (listed sup cat search lo hi).
Proof.
  rewrite filterProducts_listed. cbv zeta.
  repeat case_bool_decide; try apply SortFacts.sortWith_Permutation. reflexivity.
Qed.

Lemma In_filterProducts sup cat search sort lo hi x :
  In x (filterProducts sup cat search sort lo hi)
  <-> In x allProducts /\ passes sup cat search lo hi x = true.
Proof.
  rewrite <- filter_In. fold (listed sup cat search lo hi).
  pose proof (filterProducts_Permutation sup cat search sort lo hi) as Hp.
  split; intros H; [now apply (Permutation_in _ Hp) | now apply (Permutation_in _ (Permutation_sym Hp))].
Qed.

(** X7. [filterProducts] lists exactly the catalogue entries that pass the
    category, supplier, search and price filters, each as often as the
    catalogue has it; the sort key only decides the order, and a key that
    is none of the four known ones leaves the catalogue's order. *)
Theorem filterProducts_shown (sup : option string) (cat search sort : string)
    (lo hi : option Z) :
  Permutation (filterProducts sup cat search sort lo hi)
              (List.filter (passes sup cat search lo hi) allProducts)
  /\ (forall x, In x (filterProducts sup cat search sort lo hi)
                <-> In x allProducts /\ passes sup cat search lo hi x = true)
  /\ (sort <> "name" -> sort <> "+price" -> sort <> "-price" -> sort <> "stock" ->
      filterProducts sup cat search sort lo hi
      = List.filter (passes sup cat search lo hi) allProducts).
Proof.
  split; [apply filterProducts_Permutation|].
  split; [apply In_filterProducts|].
  intros H1 H2 H3 H4. rewrite filterProducts_listed. cbv zeta.
  now rewrite !bool_decide_eq_false_2 by assumption.
Qed.

Lemma filterProducts_order_stock sup cat search lo hi :
  StronglySorted (fun a b => stock (product b) <= stock (product a))
                 (filterProducts sup cat search "stock" lo hi).
Proof.
  rewrite filterProducts_listed. cbv zeta.
  change (bool_decide ("stock" = "name")) with false.
  change (bool_decide ("stock" = "+price")) with false.
  change (bool_decide ("stock" = "-price")) with false.
  change (bool_decide ("stock" = "stock")) with true.
  cbv iota.
  pose proof (SortFacts.sortWith_sorted
                (fun a b : Listing => stock (product b) - stock (product a))
                (fun a : Listing => - stock (product a))
                ltac:(intros; lia) (listed sup cat search lo hi)) as Hs.
  eapply SortFacts.StronglySorted_weaken; [|exact Hs]. intros a b; simpl; lia.
Qed.

(** X8. Sorted by ["+price"] the list is in descending order of
    [productMinUnitPrice], by ["-price"] in ascending order, and by
    ["stock"] in descending order of stock. *)
Theorem filterProducts_order (sup : option string) (cat search : string)
    (lo hi : option Z) :
  StronglySorted
    (fun a b => productMinUnitPrice (product b) <= productMinUnitPrice (product a))
    (filterProducts sup cat search "+price" lo hi)
  /\ StronglySorted
       (fun a b => productMinUnitPrice (product a) <= productMinUnitPrice (product b))
       (filterProducts sup cat search "-price" lo hi)
  /\ StronglySorted
       (fun a b => stock (product b) <= stock (product a))
       (filterProducts sup cat search "stock" lo hi).
Proof.
  rewrite !filterProducts_listed. cbv zeta.
  change (bool_decide ("+price" = "name")) with false.
  change (bool_decide ("+price" = "+price")) with true.
  change (bool_decide ("-price" = "name")) with false.
  change (bool_decide ("-price" = "+price")) with false.
  change (bool_decide ("-price" = "-price")) with true.
  change (bool_decide ("stock" = "name")) with false.
  change (bool_decide ("stock" = "+price")) with false.
  change (bool_decide ("stock" = "-price")) with false.
  change (bool_decide ("stock" = "stock")) with true.
  cbv iota.
  split; [|split].
  - pose proof (SortFacts.sortWith_sorted
                  (fun a b : Listing =>
                     productMinUnitPrice (product b) - productMinUnitPrice (product a))
                  (fun a : Listing => - productMinUnitPrice (product a))
                  ltac:(intros; lia) (listed sup cat search lo hi)) as Hs.
    eapply SortFacts.StronglySorted_weaken; [|exact Hs]. intros a b; simpl; lia.
  - apply (SortFacts.sortWith_sorted
             (fun a b : Listing =>
                productMinUnitPrice (product a) - productMinUnitPrice (product b))
             (fun a : Listing => productMinUnitPrice (product a))).
    intros; lia.
  - pose proof (SortFacts.sortWith_sorted
                  (fun a b : Listing => stock (product b) - stock (product a))
                  (fun a : Listing => - stock (product a))
                  ltac:(intros; lia) (listed sup cat search lo hi)) as Hs.
    eapply SortFacts.StronglySorted_weaken; [|exact Hs]. intros a b; simpl; lia.
Qed.

(** ** The handlers and the supplier filter *)

Lemma passes_supplier sup cat search lo hi x s :
  passes sup cat search lo hi x = true -> sup = Some s -> s <> EmptyString ->
  supplier x = s.
Proof.
  unfold passes. rewrite !andb_true_iff, !orb_true_iff.
  intros (((_ & [Hs|Hs]) & _) & _) -> Hne.
  - exfalso. simpl in Hs. unfold Text.truthy in Hs.
    rewrite bool_decide_eq_false_2 in Hs by exact Hne. discriminate.
  - apply bool_decide_eq_true in Hs. congruence.
Qed.

Lemma passes_initial x : passes None "all" EmptyString None None x = true.
Proof. reflexivity. Qed.

Lemma filter_all {A} (f : A -> bool) l :
  (forall x, f x = true) -> List.filter f l = l.
Proof.
  intros Hf. induction l as [|x l IH]; simpl; [reflexivity|].
  now rewrite Hf, IH.
Qed.

(** X9. Choosing a supplier records it, but the list shown right after is
    still filtered by the supplier selected before (on the initial page:
    not at all), and what decides its order is the supplier's id, handed
    on in the place of the sort key: the sort key of the page is kept but
    not applied, an id that is none of the four sort keys leaves the
    catalogue's order, and the id ["stock"] sorts by stock.  The chosen
    supplier only filters from the next handler on. *)
Theorem handleSupplierChange_lag (s : string) (st : PageState) :
  selectedSupplier (handleSupplierChange s st) = Some s
  /\ sortBy (handleSupplierChange s st) = sortBy st
  /\ (forall x, In x (filteredProducts (handleSupplierChange s st))
                <-> In x allProducts
                    /\ passes (selectedSupplier st) (selectedCategory st)
                              (searchQuery st) (Catalog.min st) (Catalog.max st) x = true)
  /\ (s <> "name" -> s <> "+price" -> s <> "-price" -> s <> "stock" ->
      filteredProducts (handleSupplierChange s st)
      = List.filter (passes (selectedSupplier st) (selectedCategory st)
                            (searchQuery st) (Catalog.min st) (Catalog.max st))
                    allProducts)
  /\ StronglySorted (fun a b => stock (product b) <= stock (product a))
                    (filteredProducts (handleSupplierChange "stock" st))
  /\ Permutation (filteredProducts (handleSupplierChange s initialPage)) allProducts
  /\ (s <> EmptyString ->
      forall (k : string) (x : Listing),
        In x (filteredProducts (handleSortChange k (handleSupplierChange s st))) ->
        supplier x = s).
Proof.
  split; [reflexivity|]. split; [reflexivity|]. split; [|split; [|split; [|split]]].
  - intros x. apply In_filterProducts.
  - intros H1 H2 H3 H4. cbn [Catalog.handleSupplierChange filteredProducts].
    rewrite filterProducts_listed. cbv zeta.
    now rewrite !bool_decide_eq_false_2 by assumption.
  - cbn [Catalog.handleSupplierChange filteredProducts].
    apply filterProducts_order_stock.
  - cbn [Catalog.handleSupplierChange filteredProducts Catalog.initialPage
         selectedSupplier selectedCategory searchQuery Catalog.min Catalog.max].
    rewrite filterProducts_Permutation. unfold Catalog.listed.
    rewrite (filter_all _ _ passes_initial). reflexivity.
  - intros Hne k x Hin.
    cbn [Catalog.handleSortChange Catalog.handleSupplierChange filteredProducts
         selectedSupplier selectedCategory searchQuery Catalog.min Catalog.max] in Hin.
    apply In_filterProducts in Hin as [_ Hp].
    now apply (passes_supplier _ _ _ _ _ x s Hp).
Qed.

(** X10. "Clear filters" resets category, search, sort key and price
    range, but not the supplier: the list it shows holds exactly the
    catalogue entries of the selected supplier (all of them when none is
    selected). *)
Theorem handleClearFilters_keeps_supplier (st : PageState) :
  selectedSupplier (handleClearFilters st) = selectedSupplier st
  /\ (forall x, In x (filteredProducts (handleClearFilters st))
                <-> In x allProducts
                    /\ (Text.truthyOpt (selectedSupplier st) = false
                        \/ Some (supplier x) = selectedSupplier st)).
Proof.
  split; [reflexivity|]. intros x.
  cbn [Catalog.handleClearFilters filteredProducts]. rewrite In_filterProducts.
  unfold passes. change (bool_decide ("all" = "all")) with true.
  change (Text.truthy EmptyString) with false. cbn [negb orb andb].
  rewrite !andb_true_r, orb_true_iff, negb_true_iff, bool_decide_eq_true. reflexivity.
Qed.

(** ** The counters of the filter bar *)

Lemma counter_insert (m : gmap string Z) (c k : string) (v : Z) :
  counter (<[c := v]> m) k = if bool_decide (c = k) then v else counter m k.
Proof.
  unfold counter. rewrite lookup_insert. case_decide as E.
  - now rewrite bool_decide_eq_true_2.
  - now rewrite bool_decide_eq_false_2.
Qed.

Lemma counts_fold (l : list Listing) : forall (m1 m2 : gmap string Z) (k : string),
  let r := fold_left
    (fun acc x =>
       (<[category x := counter (fst acc) (category x) + 1]> (fst acc),
        <[supplier x := counter (snd acc) (supplier x) + 1]> (snd acc)))
    l (m1, m2) in
  counter (fst r) k
  = counter m1 k + Z.of_nat (length (List.filter (fun x => bool_decide (category x = k)) l))
  /\ counter (snd r) k
     = counter m2 k + Z.of_nat (length (List.filter (fun x => bool_decide (supplier x = k)) l)).
Proof.
  induction l as [|x l IH]; intros m1 m2 k; cbn [fold_left List.filter fst snd].
  - simpl. lia.
  - destruct (IH (<[category x := counter m1 (category x) + 1]> m1)
               (<[supplier x := counter m2 (supplier x) + 1]> m2) k) as [H1 H2].
    cbv zeta in H1, H2. rewrite H1, H2, !counter_insert.
    split; case_bool_decide; subst; simpl length; lia.
Qed.

(** X11. The number shown beside a category other than ["all"] is the
    number of catalogue entries of that category, the one beside ["all"]
    the size of the catalogue, and the one beside a supplier the number of
    its entries. *)
Theorem categoryCount_spec (id : string) :
  (id <> "all" ->
   categoryCount allProducts id
   = Z.of_nat (length (List.filter (fun x => bool_decide (category x = id)) allProducts)))
  /\ categoryCount allProducts "all" = Z.of_nat (length allProducts)
  /\ supplierCount allProducts id
     = Z.of_nat (length (List.filter (fun x => bool_decide (supplier x = id)) allProducts)).
Proof.
  destruct (counts_fold allProducts ∅ ∅ id) as [H1 H2]. cbv zeta in H1, H2.
  fold (counts allProducts) in H1, H2.
  split; [|split].
  - intros Hne. unfold categoryCount. rewrite bool_decide_eq_false_2 by exact Hne.
    rewrite H1. unfold counter. now rewrite lookup_empty.
  - reflexivity.
  - unfold supplierCount. rewrite H2. unfold counter. now rewrite lookup_empty.
Qed.

(** ** The price hints of the filter bar *)

Lemma mathMin_spec l : forall x,
  mathMin x l <= x /\ (forall y, In y l -> mathMin x l <= y) /\ In (mathMin x l) (x :: l).
Proof.
  unfold mathMin. induction l as [|z l IH]; intros x; cbn [fold_left].
  - split; [lia|]. split; [intros y []|now left].
  - destruct (IH (Z.min x z)) as (H1 & H2 & H3).
    split; [lia|]. split.
    + intros y [<-|Hy]; [lia | now apply H2].
    + destruct H3 as [H3|H3]; [|right; now right].
      rewrite <- H3. destruct (Z.min_spec x z) as [[_ ->]|[_ ->]]; simpl; auto.
Qed.

Lemma mathMax_spec l : forall x,
  x <= mathMax x l /\ (forall y, In y l -> y <= mathMax x l) /\ In (mathMax x l) (x :: l).
Proof.
  unfold mathMax. induction l as [|z l IH]; intros x; cbn [fold_left].
  - split; [lia|]. split; [intros y []|now left].
  - destruct (IH (Z.max x z)) as (H1 & H2 & H3).
    split; [lia|]. split.
    + intros y [<-|Hy]; [lia | now apply H2].
    + destruct H3 as [H3|H3]; [|right; now right].
      rewrite <- H3. destruct (Z.max_spec x z) as [[_ ->]|[_ ->]]; simpl; auto.
Qed.

Lemma mathMin_prices l : forall m,
  mathMin m (List.map price l)
  = fold_left (fun m b => if price b <? m then price b else m) l m.
Proof.
  unfold mathMin. induction l as [|b l IH]; intros m; [reflexivity|].
  cbn [List.map fold_left]. rewrite IH. f_equal.
  destruct (Z.ltb_spec (price b) m); lia.
Qed.

Lemma mathMin_productMinUnitPrice p :
  mathMin (basePrice p) (List.map price (default [] (priceBreaks p)))
  = productMinUnitPrice p.
Proof. now rewrite mathMin_prices, productMinUnitPrice_fold. Qed.

Lemma In_allUnitPrices v :
  In v (allUnitPrices allProducts) <->
  exists x, In x allProducts
    /\ (v = productMinUnitPrice (product x)
        \/ v = mathMax (basePrice (product x))
                       (List.map price (default [] (priceBreaks (product x))))).
Proof.
  unfold allUnitPrices. rewrite in_flat_map. cbv zeta.
  split; intros (x & Hx & Hv); exists x; (split; [exact Hx|]).
  - rewrite mathMin_productMinUnitPrice in Hv. simpl in Hv. intuition.
  - rewrite mathMin_productMinUnitPrice. simpl. intuition.
Qed.

Lemma min_le_max p :
  productMinUnitPrice p
  <= mathMax (basePrice p) (List.map price (default [] (priceBreaks p))).
Proof.
  pose proof (fold_min_price (breaksOf p) (basePrice p)) as [H _].
  rewrite <- productMinUnitPrice_fold in H.
  pose proof (mathMax_spec (List.map price (default [] (priceBreaks p))) (basePrice p))
    as [H' _]. lia.
Qed.

(** X12. The price hints are 0 for an empty catalogue; otherwise the lower
    hint is the least [productMinUnitPrice] of the catalogue, and the
    upper hint is not below any base price or break price of it. *)
Theorem globalPrice_hints :
  (allProducts = [] ->
   globalMinPrice allProducts = 0 /\ globalMaxPrice allProducts = 0)
  /\ (forall x, In x allProducts ->
        globalMinPrice allProducts <= productMinUnitPrice (product x)
        /\ basePrice (product x) <= globalMaxPrice allProducts
        /\ (forall b, In b (breaksOf (product x)) ->
              price b <= globalMaxPrice allProducts))
  /\ (allProducts <> [] ->
      exists x, In x allProducts
                /\ globalMinPrice allProducts = productMinUnitPrice (product x)).
Proof.
  split; [intros ->; split; reflexivity|].
  assert (Hmin : forall v, In v (allUnitPrices allProducts) ->
                           globalMinPrice allProducts <= v).
  { unfold globalMinPrice. destruct (allUnitPrices allProducts) as [|u l]; [intros v []|].
    destruct (mathMin_spec l u) as (H1 & H2 & _).
    intros v [<-|Hv]; [exact H1 | now apply H2]. }
  assert (Hmax : forall v, In v (allUnitPrices allProducts) ->
                           v <= globalMaxPrice allProducts).
  { unfold globalMaxPrice. destruct (allUnitPrices allProducts) as [|u l]; [intros v []|].
    destruct (mathMax_spec l u) as (H1 & H2 & _).
    intros v [<-|Hv]; [exact H1 | now apply H2]. }
  split.
  - intros x Hx.
    set (top := mathMax (basePrice (product x))
                        (List.map price (default [] (priceBreaks (product x))))).
    assert (Htop : top <= globalMaxPrice allProducts).
    { apply Hmax, In_allUnitPrices. exists x. split; [exact Hx | now right]. }
    destruct (mathMax_spec (List.map price (default [] (priceBreaks (product x))))
                           (basePrice (product x))) as (H1 & H2 & _).
    fold top in H1, H2. split; [|split].
    + apply Hmin, In_allUnitPrices. exists x. split; [exact Hx | now left].
    + lia.
    + intros b Hb. specialize (H2 (price b) (in_map price _ b Hb)). lia.
  - intros Hne.
    assert (Hin : In (globalMinPrice allProducts) (allUnitPrices allProducts)).
    { unfold globalMinPrice.
      destruct (allUnitPrices allProducts) as [|u l] eqn:E.
      - exfalso. destruct allProducts as [|x l']; [now apply Hne|].
        unfold allUnitPrices in E. simpl in E. discriminate.
      - apply mathMin_spec. }
    apply In_allUnitPrices in Hin as (x & Hx & [Hv|Hv]); exists x; (split; [exact Hx|]).
    + exact Hv.
    + pose proof (min_le_max (product x)) as Hle.
      assert (globalMinPrice allProducts <= productMinUnitPrice (product x)).
      { apply Hmin, In_allUnitPrices. exists x. split; [exact Hx | now left]. }
      lia.
Qed.

End Page.

Lemma filterProducts_shown_witness :
  Catalog.filterProducts codeCompare shelf None "office" EmptyString "none" None None
  = List.filter (passes None "office" EmptyString None None) shelf.
Proof.
  apply (proj2 (proj2 (filterProducts_shown codeCompare shelf None "office" EmptyString
                         "none" None None))); discriminate.
Defined.

Lemma handleSupplierChange_lag_witness :
  filteredProducts (Catalog.handleSortChange codeCompare crate "stock"
                      (Catalog.initialPage crate))
  = rev crate
  /\ filteredProducts
       (Catalog.handleSupplierChange codeCompare crate "acme"
          (Catalog.handleSortChange codeCompare crate "stock" (Catalog.initialPage crate)))
     = crate
  /\ List.Forall (fun x => supplier x = "acme")
       (filteredProducts
          (Catalog.handleSortChange codeCompare shelf "stock"
             (Catalog.handleSupplierChange codeCompare shelf "acme"
                (Catalog.initialPage shelf)))).
Proof.
  split; [reflexivity|]. split.
  - rewrite (proj1 (proj2 (proj2 (proj2
       (handleSupplierChange_lag codeCompare crate "acme"
          (Catalog.handleSortChange codeCompare crate "stock" (Catalog.initialPage crate))))))
       ltac:(discriminate) ltac:(discriminate) ltac:(discriminate) ltac:(discriminate)).
    reflexivity.
  - apply List.Forall_forall.
    apply (proj2 (proj2 (proj2 (proj2 (proj2 (proj2
             (handleSupplierChange_lag codeCompare shelf "acme"
                (Catalog.initialPage shelf)))))))
                 ltac:(discriminate) "stock").
Defined.

Lemma categoryCount_spec_witness :
  categoryCount shelf "office"
  = Z.of_nat (length (List.filter (fun x => bool_decide (category x = "office")) shelf)).
Proof.
  apply (proj1 (categoryCount_spec shelf "office")). discriminate.
Defined.

Lemma globalPrice_hints_witness :
  exists x, In x shelf /\ globalMinPrice shelf = productMinUnitPrice (product x).
Proof.
  apply (proj2 (proj2 (globalPrice_hints shelf))). discriminate.
Defined.

End CatalogFacts.

(** * Properties of the pricing calculator *)
Module CalculatorFacts.
Import Pricing PricingFacts Calculator.

Lemma findIndex_found {A} (f : A -> bool) (l : list A) (x : A) :
  In x l -> f x = true ->
  exists (i : nat) (y : A),
    findIndex f l = Z.of_nat i /\ l !! i = Some y /\ f y = true.
Proof.
  intros Hin Hf. unfold findIndex.
  destruct (list_find (fun x => f x) l) as [[i y]|] eqn:E.
  - apply list_find_Some in E as (Hl & Hy & _).
    exists i, y. repeat split; auto. now apply Is_true_true.
  - exfalso. apply list_find_None in E. rewrite Forall_forall in E.
    apply (E x); [now apply list_elem_of_In | now rewrite Hf].
Qed.

(** X13. The index of the highlighted tier is -1 exactly when the quantity
    reaches no break; otherwise it is a position of the sorted list, the
    tier there has the threshold and the price of the best break, and it is
    drawn as active. *)
Theorem selectedBreak_spec (P : Product) (q : Z) :
  (selectedBreak P q = -1 <-> forall b, In b (breaksOf P) -> ~ minQty b <= q)
  /\ (forall best, getBestBreakForQty P q = Some best ->
        exists (i : nat) (b : PriceBreak),
          selectedBreak P q = Z.of_nat i
          /\ sortBreaks P !! i = Some b
          /\ minQty b = minQty best /\ price b = price best
          /\ isActive q b = true).
Proof.
  assert (Hsome : forall best, getBestBreakForQty P q = Some best ->
            exists (i : nat) (b : PriceBreak),
              selectedBreak P q = Z.of_nat i
              /\ sortBreaks P !! i = Some b
              /\ minQty b = minQty best /\ price b = price best
              /\ isActive q b = true).
  { intros best E. unfold selectedBreak. rewrite E.
    apply getBestBreakForQty_Some in E as [[Hin Hq] _].
    destruct (findIndex_found
                (fun b => (minQty b =? minQty best) && (price b =? price best))
                (sortBreaks P) best) as (i & b & Hi & Hb & Hf).
    - now apply In_sortBreaks.
    - now rewrite !Z.eqb_refl.
    - apply andb_true_iff in Hf as [Hm Hp]. apply Z.eqb_eq in Hm, Hp.
      exists i, b. repeat split; auto.
      unfold isActive. apply Z.leb_le. lia. }
  split; [|exact Hsome].
  destruct (getBestBreakForQty P q) as [best|] eqn:E.
  - destruct (Hsome best eq_refl) as (i & b & Hi & _). rewrite Hi.
    apply getBestBreakForQty_Some in E as [[Hin Hq] _].
    split; [lia|]. intros Hnone. exfalso. exact (Hnone best Hin Hq).
  - unfold selectedBreak. rewrite E. split; [|reflexivity].
    intros _ b Hin Hq. apply (proj1 (getBestBreakForQty_None P q) E b). now split.
Qed.

Lemma selectedBreak_spec_witness :
  exists (i : nat) (b : PriceBreak),
    selectedBreak sample 60 = Z.of_nat i
    /\ sortBreaks sample !! i = Some b
    /\ minQty b = 50 /\ price b = 800
    /\ isActive 60 b = true.
Proof.
  apply (proj2 (selectedBreak_spec sample 60) (mkBreak 50 800 None)). reflexivity.
Defined.

(** X14. A click on a tier sets the quantity to the tier's [minQty]: at
    that quantity exactly the tiers with a threshold up to that one are
    active, the clicked one among them, some break applies, and the unit
    price is not above the tier's price. *)
Theorem onBreakClick_reaches (P : Product) (b : PriceBreak) :
  In b (breaksOf P) ->
  onBreakClick b = minQty b
  /\ (forall c : PriceBreak, isActive (onBreakClick b) c = true <-> minQty c <= minQty b)
  /\ isActive (onBreakClick b) b = true
  /\ getBestBreakForQty P (onBreakClick b) <> None
  /\ getUnitPriceForQty P (onBreakClick b) <= price b.
Proof.
  intros Hin. split; [reflexivity|]. unfold onBreakClick, isActive.
  split; [intros c; apply Z.leb_le|].
  assert (He : eligible P (minQty b) b) by (split; [exact Hin | lia]).
  split; [apply Z.leb_le; lia|].
  destruct (getBestBreakForQty_eligible P (minQty b) b He) as [best E].
  split; [now rewrite E|].
  unfold getUnitPriceForQty. rewrite E.
  apply getBestBreakForQty_Some in E as [_ Hall].
  specialize (Hall b He). unfold noWorse in Hall. lia.
Qed.

Lemma onBreakClick_reaches_witness :
  onBreakClick (mkBreak 50 800 None) = 50
  /\ getUnitPriceForQty sample (onBreakClick (mkBreak 50 800 None)) <= 800.
Proof.
  destruct (onBreakClick_reaches sample (mkBreak 50 800 None) ltac:(simpl; tauto))
    as (H1 & _ & _ & _ & H2).
  split; [exact H1 | exact H2].
Defined.

(** X15. The quantity field: an empty text counts as 1; a text that
    [parseInt] reads gives a quantity that is not above the stock and, for
    a stock of at least 1, not below 1, while for a stock below 1 the
    quantity is the stock itself; a text it cannot read gives [NaN]. *)
Theorem onQuantityChange_clamp (P : Product) (text : string) :
  onQuantityChange P EmptyString = Some (Z.min (stock P) 1)
  /\ (forall r, onQuantityChange P text = Some r ->
        r <= stock P /\ (1 <= stock P -> 1 <= r) /\ (stock P < 1 -> r = stock P))
  /\ (text <> EmptyString ->
      (onQuantityChange P text = None <-> Input.parseInt10 text = None)).
Proof.
  split; [reflexivity|]. split.
  - intros r. unfold onQuantityChange.
    destruct (Input.parseInt10 _) as [v|]; [|discriminate].
    intros [= <-]. lia.
  - intros Hne. unfold onQuantityChange, Text.truthy.
    rewrite bool_decide_eq_false_2 by exact Hne. cbn [negb].
    destruct (Input.parseInt10 text); split; congruence.
Qed.

Lemma onQuantityChange_clamp_witness :
  onQuantityChange sample "9999" = Some 500 /\ 500 <= stock sample.
Proof.
  split; [reflexivity|].
  apply (proj1 (proj2 (onQuantityChange_clamp sample "9999")) 500 eq_refl).
Defined.

End CalculatorFacts.

(** * Properties of the price range fields *)
Module PriceRangeFacts.
Import Pricing Catalog PriceRange.




End PriceRangeFacts.

(** * Further properties of the cart store *)
Module CartMore.
Import Cart CartFacts CartAside.

(** ** Keys *)

Lemma sameKey_keyOf a b : sameKey a b = true <-> keyOf a = keyOf b.
Proof.
  rewrite sameKey_true. unfold keyOf. split.
  - intros (-> & -> & -> & ->). reflexivity.
  - intros [= -> -> -> ->]. auto.
Qed.

Lemma keyOf_withQty it q : keyOf (withQty it q) = keyOf it.
Proof. reflexivity. Qed.

Lemma selects_optionsOf it x :
  selects (id it) (Some (optionsOf it)) x = sameKey x it.
Proof.
  unfold selects, sameKey, optionsOf. cbn [optSku optColor optSize].
  rewrite !andb_assoc. f_equal. f_equal. f_equal.
  apply bool_decide_ext. split; congruence.
Qed.

Lemma NoDup_map_filter {A B} (f : A -> B) (g : A -> bool) (l : list A) :
  NoDup (List.map f l) -> NoDup (List.map f (List.filter g l)).
Proof.
  induction l as [|x l IH]; simpl; [auto|].
  intros Hnd. apply NoDup_cons in Hnd as [Hx Hl].
  destruct (g x); simpl; [|auto].
  apply NoDup_cons. split; [|auto].
  intros Hin. apply Hx. apply list_elem_of_In, in_map_iff in Hin as (y & Hy & Hin).
  apply filter_In in Hin as [Hin _]. apply list_elem_of_In, in_map_iff. eauto.
Qed.

Lemma filter_all_true {A} (f : A -> bool) (l : list A) :
  (forall x, In x l -> f x = true) -> List.filter f l = l.
Proof.
  induction l as [|x l IH]; intros Hf; simpl; [reflexivity|].
  rewrite (Hf x (or_introl eq_refl)), IH; [reflexivity|].
  intros y Hy. apply Hf. now right.
Qed.

(** ** Totals *)

Lemma sumQty_app l1 l2 : sumQty (l1 ++ l2) = sumQty l1 + sumQty l2.
Proof. induction l1 as [|x l1 IH]; simpl; [reflexivity | rewrite IH; lia]. Qed.

Lemma sumPrice_app l1 l2 : sumPrice (l1 ++ l2) = sumPrice l1 + sumPrice l2.
Proof. induction l1 as [|x l1 IH]; simpl; [reflexivity | rewrite IH; lia]. Qed.

Lemma sums_insert_qty (l : list CartItem) : forall (i : nat) line d,
  l !! i = Some line ->
  sumQty (<[i := withQty line (qty line + d)]> l) = sumQty l + d
  /\ sumPrice (<[i := withQty line (qty line + d)]> l) = sumPrice l + price line * d.
Proof.
  induction l as [|x l IH]; intros [|i] line d Hl; try discriminate.
  - injection Hl as ->. simpl. lia.
  - destruct (IH i line d Hl) as [H1 H2]. simpl. rewrite H1, H2. lia.
Qed.

Section Store.
Variable JSON_parse : string -> option Parsed.
Variable JSON_stringify : CartState -> string.

Local Abbreviation safeGet := (Cart.safeGet JSON_parse).
Local Abbreviation getCart := (Cart.getCart JSON_parse).
Local Abbreviation addToCart := (Cart.addToCart JSON_parse JSON_stringify).
Local Abbreviation setQty := (Cart.setQty JSON_parse JSON_stringify).
Local Abbreviation removeFromCart := (Cart.removeFromCart JSON_parse JSON_stringify).
Local Abbreviation clearCart := (Cart.clearCart JSON_stringify).
Local Abbreviation readsBack := (Cart.readsBack JSON_parse JSON_stringify).

Lemma getCart_after_write (items' : list CartItem) (w : Window) :
  let st := mkState (recalc items') false None in
  readsBack st ->
  getCart (safeSet JSON_stringify st (Some w)) = st
  /\ getCartTotal JSON_parse (safeSet JSON_stringify st (Some w))
     = sumPrice (getCartItems JSON_parse (safeSet JSON_stringify st (Some w)))
  /\ getCartItemCount JSON_parse (safeSet JSON_stringify st (Some w))
     = sumQty (getCartItems JSON_parse (safeSet JSON_stringify st (Some w))).
Proof.
  intros st Hback.
  assert (H : safeGet (safeSet JSON_stringify st (Some w)) = st)
    by now rewrite safeGet_safeSet.
  unfold Cart.getCart, getCartTotal, getCartItemCount, getCartItems. rewrite H.
  destruct (recalc_consistent items') as (Hq & Hp & _).
  split; [reflexivity|]. split; [exact Hp | exact Hq].
Qed.

(** X17. In a browser, when the text written reads back as the state
    written, [getCart] after [addToCart], [setQty], [removeFromCart] or
    [clearCart] gives the state that call returned, and the total and the
    count that the panel and the header then read are the sums over the
    lines they read.  Without [window] nothing is kept: the store stays
    absent and [getCart] gives the empty cart. *)
Theorem mutation_round_trip (w : Window) (item : CartItem) (i : ProductId) (q : Z)
    (options : option ItemOptions) :
  (forall r : CartState * Env,
     r = addToCart item (Some w) \/ r = setQty i q options (Some w)
     \/ r = removeFromCart i options (Some w) \/ r = clearCart (Some w) ->
     readsBack (fst r) ->
     getCart (snd r) = fst r
     /\ getCartTotal JSON_parse (snd r) = sumPrice (getCartItems JSON_parse (snd r))
     /\ getCartItemCount JSON_parse (snd r) = sumQty (getCartItems JSON_parse (snd r)))
  /\ (snd (addToCart item None) = None /\ snd (setQty i q options None) = None
      /\ snd (removeFromCart i options None) = None /\ snd (clearCart None) = None
      /\ getCart None = emptyState).
Proof.
  split; [|repeat split].
  intros r [->|[->|[->| ->]]] Hback; apply getCart_after_write; exact Hback.
Qed.

(** X18. A mutation of the cart writes the key ["cart"] and no other key
    of [localStorage], the text written being that of the state returned,
    and dispatches ["cart:updated"] once. *)
Theorem mutation_footprint (w : Window) (item : CartItem) (i : ProductId) (q : Z)
    (options : option ItemOptions) (r : CartState * Env) :
  r = addToCart item (Some w) \/ r = setQty i q options (Some w)
  \/ r = removeFromCart i options (Some w) \/ r = clearCart (Some w) ->
  exists w' : Window,
    snd r = Some w'
    /\ localStorage w' !! KEY = Some (JSON_stringify (fst r))
    /\ (forall k : string, k <> KEY -> localStorage w' !! k = localStorage w !! k)
    /\ dispatched w' = dispatched w ++ ["cart:updated"].
Proof.
  intros [->|[->|[->| ->]]];
    (eexists; split; [reflexivity|]; cbn [localStorage dispatched fst];
     split; [apply lookup_insert_eq|];
     split; [intros k Hk; now apply lookup_insert_ne | reflexivity]).
Qed.

(** X19. When no two lines of the stored cart have the same key, no two
    lines of the cart returned by [addToCart], [setQty] or
    [removeFromCart] have. *)
Theorem distinct_keys_kept (env : Env) (item : CartItem) (i : ProductId) (q : Z)
    (options : option ItemOptions) :
  NoDup (List.map keyOf (items (cart (safeGet env)))) ->
  NoDup (List.map keyOf (items (cart (fst (addToCart item env)))))
  /\ NoDup (List.map keyOf (items (cart (fst (setQty i q options env)))))
  /\ NoDup (List.map keyOf (items (cart (fst (removeFromCart i options env))))).
Proof.
  intros Hnd. set (items0 := items (cart (safeGet env))) in *.
  split; [|split].
  - unfold Cart.addToCart. cbn [fst cart items recalc]. fold items0.
    destruct (list_find (fun it => sameKey it item) items0) as [[idx line]|] eqn:E.
    + apply list_find_Some in E as (Hl & _ & _).
      change (List.map keyOf ?l) with (keyOf <$> l).
      rewrite list_fmap_insert, keyOf_withQty.
      rewrite list_insert_id; [exact Hnd|].
      now rewrite list_lookup_fmap, Hl.
    + apply list_find_None in E. rewrite Forall_forall in E.
      rewrite map_app. cbn [List.map]. rewrite keyOf_withQty.
      apply NoDup_app. split; [exact Hnd|]. split; [|apply NoDup_singleton].
      intros k Hk Hk'. apply list_elem_of_singleton in Hk'. subst k.
      apply list_elem_of_In, in_map_iff in Hk as (x & Hx & Hin).
      apply (E x); [now apply list_elem_of_In|].
      apply Is_true_true. now apply sameKey_keyOf.
  - unfold Cart.setQty. cbn [fst cart items recalc]. fold items0.
    rewrite map_map.
    replace (List.map _ items0) with (List.map keyOf items0); [exact Hnd|].
    apply map_ext. intros x. now destruct (selects i options x).
  - unfold Cart.removeFromCart. cbn [fst cart items recalc]. fold items0.
    now apply NoDup_map_filter.
Qed.

(** X20. [addToCart] leaves the totals of the lines it found plus the
    added quantity, priced at the unit price of the line already stored
    when there is one with the item's key (the price of the added item is
    not used then), and at the item's own price otherwise, where a
    quantity of 0 counts as 1. *)
Theorem addToCart_totals (item : CartItem) (env : Env) :
  ((exists line, line ∈ items (cart (safeGet env)) /\ sameKey line item = true) ->
   exists line,
     line ∈ items (cart (safeGet env)) /\ sameKey line item = true
     /\ totalQty (cart (fst (addToCart item env)))
        = sumQty (items (cart (safeGet env))) + qty item
     /\ totalPrice (cart (fst (addToCart item env)))
        = sumPrice (items (cart (safeGet env))) + price line * qty item)
  /\ ((forall line, line ∈ items (cart (safeGet env)) -> sameKey line item = false) ->
      totalQty (cart (fst (addToCart item env)))
      = sumQty (items (cart (safeGet env))) + (if qty item =? 0 then 1 else qty item)
      /\ totalPrice (cart (fst (addToCart item env)))
         = sumPrice (items (cart (safeGet env)))
           + price item * (if qty item =? 0 then 1 else qty item)).
Proof.
  destruct (recalc_consistent (items (cart (fst (addToCart item env)))))
    as (Hq & Hp & _).
  cbn [cart] in Hq, Hp.
  change (recalc (items (cart (fst (addToCart item env)))))
    with (cart (fst (addToCart item env))) in Hq, Hp.
  split.
  - intros Hex.
    destruct (addToCart_existing JSON_parse JSON_stringify item env Hex)
      as (idx & line & Hl & Hk & _ & Heq).
    exists line. split; [now apply list_elem_of_lookup_2 in Hl|]. split; [exact Hk|].
    rewrite Hq, Hp, Heq.
    apply (sums_insert_qty _ idx line (qty item) Hl).
  - intros Hnone.
    rewrite Hq, Hp, (addToCart_fresh JSON_parse JSON_stringify item env Hnone).
    rewrite sumQty_app, sumPrice_app. simpl. lia.
Qed.

(** ** The buttons of the cart panel *)

Lemma map_one_line (f : CartItem -> CartItem) (l : list CartItem) :
  forall (i : nat) (it : CartItem),
    NoDup (keyOf <$> l) -> l !! i = Some it ->
    List.map (fun x => if sameKey x it then f x else x) l = <[i := f it]> l.
Proof.
  induction l as [|x l IH]; intros i it Hnd Hl; [discriminate|].
  rewrite fmap_cons in Hnd. apply NoDup_cons in Hnd as [Hx Hnd].
  destruct i as [|i]; cbn [List.map].
  - injection Hl as ->.
    assert (Hrefl : sameKey it it = true) by now apply sameKey_keyOf.
    rewrite Hrefl. cbn. f_equal.
    rewrite <- (map_id l) at 2. apply map_ext_in. intros y Hy.
    destruct (sameKey y it) eqn:E; [|reflexivity].
    exfalso. apply Hx. apply sameKey_keyOf in E. rewrite <- E.
    apply list_elem_of_fmap. exists y. split; [reflexivity | now apply list_elem_of_In].
  - cbn in Hl. cbn. rewrite (IH i it Hnd Hl). f_equal.
    destruct (sameKey x it) eqn:E; [|reflexivity].
    exfalso. apply Hx. apply sameKey_keyOf in E. rewrite E.
    apply list_elem_of_fmap. exists it. split; [reflexivity|].
    now apply list_elem_of_lookup_2 in Hl.
Qed.

Lemma filter_one_line (l : list CartItem) :
  forall (i : nat) (it : CartItem),
    NoDup (keyOf <$> l) -> l !! i = Some it ->
    List.filter (fun x => negb (sameKey x it)) l = delete i l.
Proof.
  induction l as [|x l IH]; intros i it Hnd Hl; [discriminate|].
  rewrite fmap_cons in Hnd. apply NoDup_cons in Hnd as [Hx Hnd].
  destruct i as [|i]; cbn [List.filter].
  - injection Hl as ->.
    assert (Hrefl : sameKey it it = true) by now apply sameKey_keyOf.
    rewrite Hrefl. cbn. apply filter_all_true.
    intros y Hy. apply negb_true_iff. destruct (sameKey y it) eqn:E; [|reflexivity].
    exfalso. apply Hx. apply sameKey_keyOf in E. rewrite <- E.
    apply list_elem_of_fmap. exists y. split; [reflexivity | now apply list_elem_of_In].
  - cbn in Hl.
    destruct (sameKey x it) eqn:E.
    + exfalso. apply Hx. apply sameKey_keyOf in E. rewrite E.
      apply list_elem_of_fmap. exists it. split; [reflexivity|].
      now apply list_elem_of_lookup_2 in Hl.
    + cbn. now rewrite (IH i it Hnd Hl).
Qed.

(** X21. In a cart without two lines of the same key, the buttons of a
    line of the panel act on that line only: "minus" and "plus" replace its
    quantity by the greater of 1 and the quantity minus 1, respectively
    plus 1, and "remove" takes the line out; the other lines stay as they
    are and where they are. *)
Theorem panel_buttons (env : Env) (i : nat) (it : CartItem) :
  NoDup (keyOf <$> items (cart (safeGet env))) ->
  items (cart (safeGet env)) !! i = Some it ->
  items (cart (fst (onDecrement JSON_parse JSON_stringify it env)))
  = <[i := mkItem (id it) (Z.max 1 (qty it - 1)) (name it) (price it) (image it)
                  (sku it) (color it) (size it)]> (items (cart (safeGet env)))
  /\ items (cart (fst (onIncrement JSON_parse JSON_stringify it env)))
     = <[i := mkItem (id it) (Z.max 1 (qty it + 1)) (name it) (price it) (image it)
                     (sku it) (color it) (size it)]> (items (cart (safeGet env)))
  /\ items (cart (fst (onRemove JSON_parse JSON_stringify it env)))
     = delete i (items (cart (safeGet env)))
  /\ (forall (j : nat) (other : CartItem),
        j <> i -> items (cart (safeGet env)) !! j = Some other ->
        items (cart (fst (onDecrement JSON_parse JSON_stringify it env))) !! j = Some other
        /\ items (cart (fst (onIncrement JSON_parse JSON_stringify it env))) !! j
           = Some other
        /\ other ∈ items (cart (fst (onRemove JSON_parse JSON_stringify it env)))).
Proof.
  intros Hnd Hl.
  assert (Hdec : items (cart (fst (onDecrement JSON_parse JSON_stringify it env)))
                 = <[i := withQty it (Z.max 1 (qty it - 1))]> (items (cart (safeGet env)))).
  { unfold onDecrement, Cart.setQty. cbn [fst cart items recalc].
    replace (Z.max 1 (Z.max 1 (qty it - 1))) with (Z.max 1 (qty it - 1)) by lia.
    rewrite <- (map_one_line (fun x => withQty x (Z.max 1 (qty it - 1))) _ i it Hnd Hl).
    apply map_ext. intros x. now rewrite selects_optionsOf. }
  assert (Hinc : items (cart (fst (onIncrement JSON_parse JSON_stringify it env)))
                 = <[i := withQty it (Z.max 1 (qty it + 1))]> (items (cart (safeGet env)))).
  { unfold onIncrement, Cart.setQty. cbn [fst cart items recalc].
    rewrite <- (map_one_line (fun x => withQty x (Z.max 1 (qty it + 1))) _ i it Hnd Hl).
    apply map_ext. intros x. now rewrite selects_optionsOf. }
  assert (Hrem : items (cart (fst (onRemove JSON_parse JSON_stringify it env)))
                 = delete i (items (cart (safeGet env)))).
  { unfold onRemove, Cart.removeFromCart. cbn [fst cart items recalc].
    rewrite <- (filter_one_line _ i it Hnd Hl).
    apply filter_ext. intros x. now rewrite selects_optionsOf. }
  split; [exact Hdec|]. split; [exact Hinc|]. split; [exact Hrem|].
  intros j other Hj Hother. rewrite Hdec, Hinc, Hrem.
  rewrite !list_lookup_insert_ne by congruence.
  split; [exact Hother|]. split; [exact Hother|].
  destruct (Nat.lt_ge_cases j i) as [Hlt|Hge].
  - apply (list_elem_of_lookup_2 _ j). rewrite list_lookup_delete_lt by exact Hlt.
    exact Hother.
  - destruct j as [|j]; [lia|].
    apply (list_elem_of_lookup_2 _ j). rewrite list_lookup_delete_ge by lia.
    exact Hother.
Qed.

(** X22. No state that the store hands out is loading or carries an
    error: [isCartLoading] is always false. *)
Theorem never_loading (env : Env) (item : CartItem) (i : ProductId) (q : Z)
    (options : option ItemOptions) :
  isCartLoading JSON_parse env = false
  /\ (forall st : CartState,
        st = getCart env \/ st = fst (addToCart item env)
        \/ st = fst (setQty i q options env)
        \/ st = fst (removeFromCart i options env) \/ st = fst (clearCart env) ->
        loading st = false /\ error st = None).
Proof.
  assert (Hget : loading (safeGet env) = false /\ error (safeGet env) = None).
  { unfold Cart.safeGet. destruct env as [w|]; [|split; reflexivity].
    destruct (localStorage w !! KEY) as [data|]; [|split; reflexivity].
    case_bool_decide; [split; reflexivity|].
    destruct (JSON_parse data) as [[| |c]|]; split; reflexivity. }
  split; [apply Hget|].
  intros st [->|[->|[->|[->| ->]]]]; [exact Hget | split; reflexivity ..].
Qed.

End Store.

Lemma mutation_round_trip_witness :
  Cart.getCart sampleParse
    (snd (Cart.addToCart sampleParse sampleStringify (pen 2) (Some freshWindow)))
  = fst (Cart.addToCart sampleParse sampleStringify (pen 2) (Some freshWindow)).
Proof.
  apply (proj1 (mutation_round_trip sampleParse sampleStringify freshWindow (pen 2)
                  (IdNumber 7) 1 None)
               (Cart.addToCart sampleParse sampleStringify (pen 2) (Some freshWindow))).
  - left. reflexivity.
  - split; [discriminate | reflexivity].
Defined.

Lemma mutation_footprint_witness :
  exists w' : Window,
    snd (Cart.clearCart sampleStringify (Some (windowWith "two"))) = Some w'
    /\ localStorage w' !! KEY
       = Some (sampleStringify (fst (Cart.clearCart sampleStringify
                                       (Some (windowWith "two")))))
    /\ (forall k : string, k <> KEY ->
          localStorage w' !! k = localStorage (windowWith "two") !! k)
    /\ dispatched w' = dispatched (windowWith "two") ++ ["cart:updated"].
Proof.
  apply (mutation_footprint sampleParse sampleStringify (windowWith "two") (pen 1)
           (IdNumber 7) 1 None).
  right. right. right. reflexivity.
Defined.

Lemma distinct_keys_kept_witness :
  NoDup (List.map keyOf
           (items (cart (fst (Cart.addToCart sampleParse sampleStringify (pen 3)
                                (Some (windowWith "two"))))))).
Proof.
  apply (distinct_keys_kept sampleParse sampleStringify (Some (windowWith "two"))
           (pen 3) (IdNumber 7) 1 None).
  vm_compute. apply NoDup_singleton.
Defined.

Lemma addToCart_totals_witness :
  totalQty (cart (fst (Cart.addToCart sampleParse sampleStringify (pen 0) None)))
  = sumQty (items (cart (Cart.safeGet sampleParse None))) + 1.
Proof.
  apply (proj2 (addToCart_totals sampleParse sampleStringify (pen 0) None)).
  intros line Hin. vm_compute in Hin. inversion Hin.
Defined.

Lemma panel_buttons_witness :
  items (cart (fst (onDecrement pairParse sampleStringify (pen 2)
                      (Some (windowWith "pair")))))
  = [mkItem (IdNumber 7) 1 "Pen" 120 None "PEN-01" (Some "blue") None;
     mkItem (IdString "m-1") 1 "Mug" 900 None "MUG-01" None None]
  /\ items (cart (fst (onIncrement pairParse sampleStringify (mug 1)
                         (Some (windowWith "pair")))))
     = [mkItem (IdNumber 7) 2 "Pen" 120 None "PEN-01" (Some "blue") None;
        mkItem (IdString "m-1") 2 "Mug" 900 None "MUG-01" None None]
  /\ items (cart (fst (onRemove pairParse sampleStringify (pen 2)
                         (Some (windowWith "pair")))))
     = [mkItem (IdString "m-1") 1 "Mug" 900 None "MUG-01" None None].
Proof.
  assert (Hnd : NoDup (keyOf <$> items (cart (Cart.safeGet pairParse
                                                 (Some (windowWith "pair")))))).
  { vm_compute. apply NoDup_cons. split; [|apply NoDup_singleton].
    intros Hin. apply list_elem_of_singleton in Hin. discriminate Hin. }
  destruct (panel_buttons pairParse sampleStringify (Some (windowWith "pair"))
              0 (pen 2) Hnd eq_refl) as (Hdec & _ & Hrem & _).
  destruct (panel_buttons pairParse sampleStringify (Some (windowWith "pair"))
              1 (mug 1) Hnd eq_refl) as (_ & Hinc & _).
  rewrite Hdec, Hinc, Hrem. repeat split.
Defined.

Lemma never_loading_witness :
  loading (Cart.getCart sampleParse (Some (windowWith "odd"))) = false.
Proof.
  apply (proj2 (never_loading sampleParse sampleStringify (Some (windowWith "odd"))
                  (pen 1) (IdNumber 7) 1 None)).
  left. reflexivity.
Defined.

End CartMore.

(** * Further properties of the RUT helpers *)
Module RutMore.
Import Rut RutFacts Quote.

(** ** Characters *)

Ltac by_cases_on_char c :=
  destruct c as [[] [] [] [] [] [] [] []]; vm_compute; try reflexivity; try discriminate.

Lemma upperChar_idem c : upperChar (upperChar c) = upperChar c.
Proof. by_cases_on_char c. Qed.

Lemma kept_upperChar c : kept c = true -> kept (upperChar c) = true.
Proof. by_cases_on_char c. Qed.

Lemma isDigit_kept c : isDigit c = true -> kept c = true /\ upperChar c = c.
Proof. by_cases_on_char c; split; reflexivity. Qed.

Lemma chars_append (a b : string) :
  list_ascii_of_string (a +:+ b) = list_ascii_of_string a ++ list_ascii_of_string b.
Proof. induction a as [|c a IH]; simpl; [reflexivity | now rewrite IH]. Qed.

Lemma chars_inj (a b : string) :
  list_ascii_of_string a = list_ascii_of_string b -> a = b.
Proof.
  intros H. rewrite <- (string_of_list_ascii_of_string a),
    <- (string_of_list_ascii_of_string b). now rewrite H.
Qed.

Lemma chars_cleaned rut :
  list_ascii_of_string (cleanRut rut)
  = List.map upperChar (List.filter kept (list_ascii_of_string rut)).
Proof. apply chars_cleanRut. Qed.

(** A cleaned text holds no dot and no hyphen and is in upper case. *)
Lemma cleanRut_clean rut :
  List.filter kept (list_ascii_of_string (cleanRut rut)) = list_ascii_of_string (cleanRut rut)
  /\ List.map upperChar (list_ascii_of_string (cleanRut rut))
     = list_ascii_of_string (cleanRut rut).
Proof.
  rewrite chars_cleaned.
  induction (list_ascii_of_string rut) as [|c l [IH1 IH2]]; [split; reflexivity|].
  cbn [List.filter]. destruct (kept c) eqn:E; [|now split].
  cbn [List.map List.filter]. rewrite (kept_upperChar c E), upperChar_idem.
  split; now f_equal.
Qed.

Lemma cleanRut_of_clean (s : string) :
  List.filter kept (list_ascii_of_string s) = list_ascii_of_string s ->
  List.map upperChar (list_ascii_of_string s) = list_ascii_of_string s ->
  cleanRut s = s.
Proof.
  intros H1 H2. apply chars_inj. now rewrite chars_cleaned, H1, H2.
Qed.

(** ** Slices and dots *)

Lemma slices_append (c : string) : (sliceInit c +:+ sliceLast c)%string = c.
Proof.
  induction c as [|a c IH]; [reflexivity|].
  destruct c as [|b c]; [reflexivity|].
  change (sliceInit (String a (String b c))) with (String a (sliceInit (String b c))).
  change (sliceLast (String a (String b c))) with (sliceLast (String b c)).
  change (String a (sliceInit (String b c)) +:+ sliceLast (String b c))%string
    with (String a (sliceInit (String b c) +:+ sliceLast (String b c)))%string.
  now rewrite IH.
Qed.

Lemma filter_withDots l : forall prev,
  List.filter kept (withDots prev l) = List.filter kept l.
Proof.
  induction l as [|c l IH]; intros prev; [reflexivity|].
  cbn [withDots]. rewrite List.filter_app. cbn [List.filter]. rewrite IH.
  destruct (match prev with Some p => _ | None => false end); reflexivity.
Qed.

Lemma cleanRut_formatRut rut : cleanRut (formatRut rut) = cleanRut rut.
Proof.
  unfold formatRut. destruct (Text.truthy (cleanRut rut)) eqn:E; cbn [negb].
  - destruct (cleanRut_clean rut) as [H1 H2].
    set (c := cleanRut rut) in *.
    apply chars_inj. rewrite chars_cleaned, !chars_append.
    rewrite list_ascii_of_string_of_list_ascii, !List.filter_app, filter_withDots.
    change (List.filter kept (list_ascii_of_string "-")) with (@nil ascii).
    rewrite app_nil_l, <- List.filter_app, <- chars_append, slices_append.
    now rewrite H1, H2.
  - unfold Text.truthy in E. apply negb_false_iff, bool_decide_eq_true in E.
    now rewrite E.
Qed.

(** X23. Formatting does not change what a RUT is: the formatted text
    cleans to the same text as the original, so it is valid exactly when
    the original is, and formatting it again changes nothing; cleaning is
    idempotent, and the formatted text is empty only for a text that
    cleans to the empty text. *)
Theorem formatRut_round_trip (rut : string) :
  cleanRut (formatRut rut) = cleanRut rut
  /\ cleanRut (cleanRut rut) = cleanRut rut
  /\ validateRut (formatRut rut) = validateRut rut
  /\ formatRut (formatRut rut) = formatRut rut
  /\ (formatRut rut = EmptyString <-> cleanRut rut = EmptyString).
Proof.
  pose proof (cleanRut_formatRut rut) as H.
  split; [exact H|]. split; [|split; [|split]].
  - destruct (cleanRut_clean rut). now apply cleanRut_of_clean.
  - unfold validateRut. now rewrite H.
  - unfold formatRut at 1 3. now rewrite H.
  - split.
    + intros E. now rewrite <- H, E.
    + intros E. unfold formatRut. now rewrite E.
Qed.

(** ** The check digit *)

Lemma mod11CheckDigit_char body :
  exists c, mod11CheckDigit body = String c EmptyString
            /\ (isDigit c = true \/ c = "K"%char).
Proof.
  unfold mod11CheckDigit.
  set (total := weightedSum 0 (List.map digitValue (rev body))).
  pose proof (Z.mod_pos_bound total 11 ltac:(lia)) as Ht.
  set (r := 11 - total mod 11). assert (Hr : 1 <= r <= 11) by (unfold r; lia).
  clearbody r. clear Ht.
  assert (Hcases : r = 1 \/ r = 2 \/ r = 3 \/ r = 4 \/ r = 5 \/ r = 6 \/ r = 7
                   \/ r = 8 \/ r = 9 \/ r = 10 \/ r = 11) by lia.
  destruct Hcases as [->|[->|[->|[->|[->|[->|[->|[->|[->|[->| ->]]]]]]]]]];
    eexists; (split; [reflexivity|]); vm_compute; auto.
Qed.

Lemma chars_cleanRut_digits body d :
  Forall (fun c => isDigit c = true) body -> kept d = true ->
  list_ascii_of_string (cleanRut (string_of_list_ascii (body ++ [d])))
  = body ++ [upperChar d].
Proof.
  intros Hd Hk. rewrite chars_cleaned, list_ascii_of_string_of_list_ascii.
  rewrite List.filter_app, List.map_app. cbn [List.filter]. rewrite Hk. cbn [List.map].
  f_equal. induction Hd as [|c l Hc Hl IH]; [reflexivity|].
  destruct (isDigit_kept c Hc) as [Hkc Hu].
  cbn [List.filter]. rewrite Hkc. cbn [List.map]. now rewrite Hu, IH.
Qed.

(** X24. A body of 1 to 8 digits has exactly one check character: [calcDV]
    of it is a single digit or ["K"], and the body followed by a further
    character (not a dot or hyphen) is a valid RUT exactly when that
    character, a small letter counting as its capital, is the one [calcDV]
    gives. *)
Theorem check_digit_unique (body : list ascii) (d : ascii) :
  (1 <= length body <= 8)%nat ->
  Forall (fun c => isDigit c = true) body ->
  d <> "."%char -> d <> "-"%char ->
  (exists c, calcDV (string_of_list_ascii body) = String c EmptyString
             /\ (isDigit c = true \/ c = "K"%char))
  /\ (validateRut (string_of_list_ascii (body ++ [d])) = true
      <-> calcDV (string_of_list_ascii body) = String (upperLetter d) EmptyString).
Proof.
  intros Hlen Hd Hdot Hhyp.
  assert (Hk : kept d = true).
  { unfold kept. now rewrite !bool_decide_eq_false_2. }
  rewrite (calcDV_mod11 body Hd).
  destruct (mod11CheckDigit_char body) as (c & Hc & Hcd).
  split; [eauto|].
  rewrite validateRut_true. unfold shaped.
  rewrite (chars_cleanRut_digits body d Hd Hk), upperChar_upperLetter. split.
  - intros (body' & dv & (Happ & _) & Hdv).
    apply app_inj_tail in Happ as [<- <-]. exact Hdv.
  - intros Hdv. exists body, (upperLetter d).
    repeat split; try lia; auto.
    rewrite Hc in Hdv. injection Hdv as <-. exact Hcd.
Qed.

Lemma check_digit_unique_witness :
  validateRut "6k" = true /\ validateRut "123456785" = true.
Proof.
  split.
  - apply (proj2 (check_digit_unique (list_ascii_of_string "6") "k"%char
                    ltac:(simpl; lia) ltac:(repeat constructor)
                    ltac:(discriminate) ltac:(discriminate))).
    reflexivity.
  - apply (proj2 (check_digit_unique (list_ascii_of_string "12345678") "5"%char
                    ltac:(simpl; lia) ltac:(repeat constructor)
                    ltac:(discriminate) ltac:(discriminate))).
    reflexivity.
Defined.

(** ** Input that is not a number *)

Lemma calcDVLoop_NaN l : forall M, calcDVLoop l M None = None.
Proof. induction l as [|c l IH]; intros M; [reflexivity | apply IH]. Qed.

Lemma calcDVLoop_bad c l : forall M S,
  In c l -> charToNumber c = None -> calcDVLoop l M S = None.
Proof.
  induction l as [|x l IH]; intros M S [] Hc.
  - subst x. cbn [calcDVLoop]. rewrite Hc.
    destruct S; apply calcDVLoop_NaN.
  - cbn [calcDVLoop]. now apply IH.
Qed.

Lemma calcDVLoop_spaces l : forall M s,
  0 <= s < 11 ->
  Forall (fun c => isSpace c = true) l ->
  calcDVLoop l M (Some s) = Some s.
Proof.
  induction l as [|c l IH]; intros M s Hs Hl; [reflexivity|].
  apply Forall_cons in Hl as [Hc Hl]. cbn [calcDVLoop].
  assert (Hn : charToNumber c = Some 0).
  { unfold charToNumber. rewrite Hc.
    destruct (isDigit c) eqn:Ed; [|reflexivity].
    exfalso. revert Ed Hc. destruct c as [[] [] [] [] [] [] [] []]; vm_compute; congruence. }
  rewrite Hn. rewrite Z.mul_0_l, Z.add_0_r, Z.rem_small by lia.
  now apply IH.
Qed.

(** X25. [calcDV] answers ["0"] for the empty text and for a text of white
    space only (each such character counts as 0, the no-break space
    included), and ["K"] for any text with a character that is neither a
    digit nor white space (the running value is [NaN] from there on). *)
Theorem calcDV_not_a_number (rutNumber : string) :
  calcDV EmptyString = "0"
  /\ (Forall (fun c => isSpace c = true) (list_ascii_of_string rutNumber) ->
      calcDV rutNumber = "0")
  /\ ((exists c, In c (list_ascii_of_string rutNumber)
                 /\ isDigit c = false /\ isSpace c = false) ->
      calcDV rutNumber = "K")
  /\ (forall c : ascii,
        isSpace c = true <->
        In (Z.of_nat (nat_of_ascii c)) [9; 10; 11; 12; 13; 32; 160]).
Proof.
  split; [reflexivity|]. split; [|split].
  - intros Hsp. unfold calcDV. rewrite (calcDVLoop_spaces _ 0 1); [reflexivity | lia |].
    apply Forall_forall. intros x Hx. rewrite Forall_forall in Hsp. apply Hsp.
    apply list_elem_of_In. apply in_rev. now apply list_elem_of_In.
  - intros (c & Hin & Hd & Hs).
    unfold calcDV. rewrite (calcDVLoop_bad c); [reflexivity | now apply in_rev in Hin |].
    unfold charToNumber. now rewrite Hd, Hs.
  - intros c. destruct c as [[] [] [] [] [] [] [] []]; vm_compute;
      (split; [try discriminate; intros _; tauto
              | try reflexivity; intros H; repeat (destruct H as [H|H]; try discriminate H); try contradiction]).
Qed.

Lemma calcDV_not_a_number_witness :
  calcDV "12a4" = "K"
  /\ calcDV (String (ascii_of_nat 160) (String " " EmptyString)) = "0".
Proof.
  split.
  - apply (proj1 (proj2 (proj2 (calcDV_not_a_number "12a4")))). exists "a"%char.
    split; [simpl; tauto | split; reflexivity].
  - apply (proj1 (proj2 (calcDV_not_a_number
                           (String (ascii_of_nat 160) (String " " EmptyString))))).
    repeat constructor.
Defined.

(** The no-break space counts as 0 in the middle of a number as well. *)
Example calcDV_no_break_space :
  calcDV (String "1" (String (ascii_of_nat 160) EmptyString)) = "8".
Proof. reflexivity. Qed.

End RutMore.
